(** * Analytics core of the trading dashboard (src/app.py)

    A shallow embedding of the four pure components of [app.py]:
    [resumo] (summary), [filtrar_por_tres_janelas_abertura] (window
    filter), [simular_stop_diario] (daily stop simulator) and the
    15-minute / 1-hour bucket tables.

    Conventions of the model.
    - A [pandas.Timestamp] is the number of seconds since the epoch, a
      [Z]; calendar date, hour and minute are derived with floor
      division, as [dt.date], [dt.hour] and [dt.minute] do.
    - Points ("Lucro Líquido (pts)", thresholds, sums) are exact
      rationals [Q]; rounding, overflow and NaN of binary64 are outside
      the model.  Equalities between computed numbers are therefore
      [Qeq] ([==]).
    - [sort_values] is a stable insertion sort on the sort key.
    - A data frame is the list of its rows, in row order, together with
      the optional column "Total Parcial (pts)". *)

From Stdlib Require Import String Ascii ZArith QArith Qabs List Bool Lia.
From Stdlib Require Import Sorting.Permutation Sorting.Sorted.
From Stdlib Require Import DecimalString.
Import ListNotations.

Local Open Scope Z_scope.

(** ** Numbers *)

Module Num.

(** [x < y], [x >= y] and [x != y] on points, as booleans. *)
Definition Qltb (x y : Q) : bool := negb (Qle_bool y x).
Definition Qgeb (x y : Q) : bool := Qle_bool y x.

(** [Series.sum()]: the sum of an empty series is 0. *)
Definition sum (l : list Q) : Q := fold_right Qplus 0%Q l.

(** [Series.cumsum()], started from the running total [acc]. *)
Fixpoint cumsum_from (acc : Q) (l : list Q) : list Q :=
  match l with
  | [] => []
  | x :: l' => (acc + x)%Q :: cumsum_from (acc + x)%Q l'
  end.

Definition cumsum (l : list Q) : list Q := cumsum_from 0%Q l.

(** [len(...)] as a number. *)
Definition len {A : Type} (l : list A) : Z := Z.of_nat (length l).

End Num.
Import Num.

(** ** Timestamps *)

Module Timestamp.

(** Seconds since the epoch. *)
Definition t := Z.

(** [dt.date]: the calendar day, as a day number. *)
Definition date (ts : t) : Z := ts / 86400.

Definition second_of_day (ts : t) : Z := ts mod 86400.

(** [dt.hour], [dt.minute], [dt.second]. *)
Definition hour (ts : t) : Z := second_of_day ts / 3600.
Definition minute (ts : t) : Z := (second_of_day ts mod 3600) / 60.
Definition second (ts : t) : Z := second_of_day ts mod 60.

(** The timestamp of day [d] at [h:m:s]. *)
Definition make (d h m s : Z) : t := d * 86400 + h * 3600 + m * 60 + s.

End Timestamp.

(** [datetime.time], the type of the window bounds. *)
Record time := mkTime { t_hour : Z; t_minute : Z; t_second : Z }.

(** ** Data frames *)

(** One row of the trade log: the columns the core reads. *)
Record Trade := mkTrade {
  DataHora : Timestamp.t;      (* "DataHora" *)
  Lucro_Liquido : Q            (* "Lucro Líquido (pts)" *)
}.

(** A frame either has no column "Total Parcial (pts)" or carries one
    cell of it per row. *)
Inductive DataFrame :=
| Frame (rows : list Trade)
| FrameTP (rows : list (Trade * Q)).

Definition trades (df : DataFrame) : list Trade :=
  match df with
  | Frame rows => rows
  | FrameTP rows => map fst rows
  end.

(** ["Total Parcial (pts)" in df.columns] and the column itself. *)
Definition has_Total_Parcial (df : DataFrame) : bool :=
  match df with Frame _ => false | FrameTP _ => true end.

Definition Total_Parcial (df : DataFrame) : option (list Q) :=
  match df with
  | Frame _ => None
  | FrameTP rows => Some (map snd rows)
  end.

(** [len(df)]. *)
Definition df_len (df : DataFrame) : Z := len (trades df).

(** [df["Total Parcial (pts)"] = df["Lucro Líquido (pts)"].astype(float).cumsum()]:
    the column is created or overwritten. *)
Definition set_Total_Parcial_cumsum (df : DataFrame) : DataFrame :=
  let rows := trades df in
  FrameTP (combine rows (cumsum (map Lucro_Liquido rows))).

(** ** Sorting and grouping *)

Section Sorting.

Context {A : Type} (key : A -> Z).

(** Insertion of [x], which precedes every row of [l] in row order:
    it goes before the rows with an equal key. *)
Fixpoint insert_sorted (x : A) (l : list A) : list A :=
  match l with
  | [] => [x]
  | y :: l' => if key x <=? key y then x :: l
               else y :: insert_sorted x l'
  end.

(** [sort_values(key)]: ascending, ties in row order. *)
Definition sort_values (l : list A) : list A :=
  fold_right insert_sorted [] l.

(** Ascending by [key]. *)
Definition ascending (l : list A) : Prop :=
  StronglySorted (fun a b => key a <= key b) l.

(** [df.loc[mask]] where the mask is computed row by row. *)
Definition loc (mask : A -> bool) (l : list A) : list A := filter mask l.

End Sorting.

(** The distinct keys of a [groupby], ascending. *)
Fixpoint insert_key (k : Z) (ks : list Z) : list Z :=
  match ks with
  | [] => [k]
  | k' :: ks' =>
      if k <? k' then k :: ks
      else if k =? k' then ks
      else k' :: insert_key k ks'
  end.

Definition group_keys (ks : list Z) : list Z := fold_right insert_key [] ks.

(** The rows of the group of key [k], in row order. *)
Definition group_of {A : Type} (key : A -> Z) (k : Z) (rows : list A) : list A :=
  filter (fun r => key r =? k) rows.

(** [df.groupby(key)]: one group per distinct key, keys ascending, each
    group holding its rows in row order. *)
Definition groupby {A : Type} (key : A -> Z) (l : list A) : list (Z * list A) :=
  map (fun k => (k, group_of key k l)) (group_keys (map key l)).

(** ** Summary engine: [resumo] *)



Definition is_gain (r : Trade) : bool := Qltb 0 (Lucro_Liquido r).
Definition is_loss (r : Trade) : bool := Qltb (Lucro_Liquido r) 0.


(** ** Window filter: [filtrar_por_tres_janelas_abertura] *)

Definition time_to_minutes (t : time) : Z := t_hour t * 60 + t_minute t.

Definition mask_janela (mins ini fim : Z) : bool :=
  if fim >=? ini then (mins >=? ini) && (mins <=? fim)
  else (mins >=? ini) || (mins <=? fim).

(** [df["DataHora"].dt.hour * 60 + df["DataHora"].dt.minute], for one row. *)
Definition mins_abertura (ts : Timestamp.t) : Z :=
  Timestamp.hour ts * 60 + Timestamp.minute ts.

(** The contribution of an optional window to the mask. *)
Definition mask_opcional (usar : bool) (inicio fim : option time) (mins : Z)
  : bool :=
  match usar, inicio, fim with
  | true, Some i, Some f => mask_janela mins (time_to_minutes i) (time_to_minutes f)
  | _, _, _ => false
  end.

Definition mask_final
    (hora1_inicio hora1_fim : time)
    (usar_janela2 : bool) (hora2_inicio hora2_fim : option time)
    (usar_janela3 : bool) (hora3_inicio hora3_fim : option time)
    (mins : Z) : bool :=
  mask_janela mins (time_to_minutes hora1_inicio) (time_to_minutes hora1_fim)
  || mask_opcional usar_janela2 hora2_inicio hora2_fim mins
  || mask_opcional usar_janela3 hora3_inicio hora3_fim mins.

(** Row selection and sorting keep the cells of "Total Parcial (pts)"
    with their rows. *)
Definition df_loc (mask : Trade -> bool) (df : DataFrame) : DataFrame :=
  match df with
  | Frame rows => Frame (loc mask rows)
  | FrameTP rows => FrameTP (loc (fun r => mask (fst r)) rows)
  end.

Definition df_sort_values_DataHora (df : DataFrame) : DataFrame :=
  match df with
  | Frame rows => Frame (sort_values DataHora rows)
  | FrameTP rows => FrameTP (sort_values (fun r => DataHora (fst r)) rows)
  end.

Definition filtrar_por_tres_janelas_abertura
    (df_in : DataFrame)
    (hora1_inicio hora1_fim : time)
    (usar_janela2 : bool) (hora2_inicio hora2_fim : option time)
    (usar_janela3 : bool) (hora3_inicio hora3_fim : option time)
  : DataFrame :=
  let mask r :=
    mask_final hora1_inicio hora1_fim
               usar_janela2 hora2_inicio hora2_fim
               usar_janela3 hora3_inicio hora3_fim
               (mins_abertura (DataHora r)) in
  df_sort_values_DataHora (df_loc mask df_in).

(** ** Daily stop simulator: [simular_stop_diario] *)

(** The two counters of a day. *)
Record DayState := mkDay {
  saldo_acumulado : Q;
  perdas_consecutivas : Z
}.

Definition day_start : DayState := mkDay 0%Q 0.

(** Lines 70-75: the counters after a trade of net result [lucro]. *)
Definition update (st : DayState) (lucro : Q) : DayState :=
  {| saldo_acumulado := (saldo_acumulado st + lucro)%Q;
     perdas_consecutivas :=
       if Qltb lucro 0 then perdas_consecutivas st + 1 else 0 |}.

(** Lines 77-81: the three guards of the [break]. *)
Definition stop_hit (limite_perda objetivo_ganho : Q) (loss_consecutivos : Z)
    (st : DayState) : bool :=
  Qgeb (saldo_acumulado st) objetivo_ganho
  || Qle_bool (saldo_acumulado st) (- limite_perda)
  || (perdas_consecutivas st >=? loss_consecutivos).

Section Replay.

(** The rows are those of a frame with or without the column
    "Total Parcial (pts)"; [trade_of] reads the trade of a row. *)
Context {A : Type} (trade_of : A -> Trade).
Variables (limite_perda objetivo_ganho : Q) (loss_consecutivos : Z).

Definition row_DataHora (r : A) : Z := DataHora (trade_of r).
Definition row_lucro (r : A) : Q := Lucro_Liquido (trade_of r).

(** [df_tmp["Data"]]. *)
Definition row_Data (r : A) : Z := Timestamp.date (row_DataHora r).

(** The inner loop over the rows of one day, from the counters [st];
    [linhas] is the list shared by all the days. *)
Fixpoint replay (st : DayState) (grupo : list A) (linhas : list A) : list A :=
  match grupo with
  | [] => linhas
  | row :: rest =>
      let linhas := linhas ++ [row] in
      let st := update st (row_lucro row) in
      if stop_hit limite_perda objetivo_ganho loss_consecutivos st
      then linhas
      else replay st rest linhas
  end.

(** The outer loop over the days. *)
Definition simular_linhas (rows : list A) : list A :=
  fold_left
    (fun linhas g => replay day_start (sort_values row_DataHora (snd g)) linhas)
    (groupby row_Data rows) [].

End Replay.

(** [pd.DataFrame(linhas)]: without rows the frame has no column; with
    rows it has the columns of the rows. *)
Definition DataFrame_of_TP_rows (linhas : list (Trade * Q)) : DataFrame :=
  match linhas with
  | [] => Frame []
  | _ :: _ => FrameTP linhas
  end.

Definition simular_stop_diario (df_in : DataFrame)
    (limite_perda objetivo_ganho : Q) (loss_consecutivos : Z) : DataFrame :=
  let df_sim :=
    match df_in with
    | Frame rows =>
        Frame (simular_linhas (fun r => r)
                 limite_perda objetivo_ganho loss_consecutivos rows)
    | FrameTP rows =>
        DataFrame_of_TP_rows
          (simular_linhas fst limite_perda objetivo_ganho loss_consecutivos rows)
    end in
  if df_len df_sim >? 0
  then set_Total_Parcial_cumsum (df_sort_values_DataHora df_sim)
  else df_sim.

(** ** Time-bucket aggregator *)

Module Buckets.

(** [astype(str)] of an integer and [str.zfill(2)]. *)
Definition astype_str (z : Z) : string := NilZero.string_of_int (Z.to_int z).

Definition zfill2 (s : string) : string :=
  match String.length s with
  | O => ("00" ++ s)%string
  | S O => ("0" ++ s)%string
  | _ => s
  end.

(** ["HH:MM–HH:MM"] from the first and the last minute of a slot. *)
Definition faixa_label (ini fim : Z) : string :=
  (zfill2 (astype_str (ini / 60)) ++ ":" ++ zfill2 (astype_str (ini mod 60))
   ++ "–" ++
   zfill2 (astype_str (fim / 60)) ++ ":" ++ zfill2 (astype_str (fim mod 60)))%string.

Definition min_do_dia (r : Trade) : Z := mins_abertura (DataHora r).

(** Lines 343-346 and 360-363. *)
Definition slot_15m (r : Trade) : Z := min_do_dia r / 15.
Definition slot_ini_min (slot : Z) : Z := slot * 15.
Definition slot_fim_min (slot : Z) : Z := slot_ini_min slot + 14.
Definition Faixa_Horaria (slot : Z) : string :=
  faixa_label (slot_ini_min slot) (slot_fim_min slot).

Definition slot_1h (r : Trade) : Z := min_do_dia r / 60.
Definition slot1h_ini_min (slot : Z) : Z := slot * 60.
Definition slot1h_fim_min (slot : Z) : Z := slot1h_ini_min slot + 59.
Definition Faixa_1h (slot : Z) : string :=
  faixa_label (slot1h_ini_min slot) (slot1h_fim_min slot).

(** Python's [a / b] on numbers raises ZeroDivisionError when [b] is
    zero, and [Series.mean()] of an empty series is NaN: [None] stands
    for "no number". *)
Definition py_div (a b : Q) : option Q :=
  if Qeq_bool b 0 then None else Some (a / b)%Q.

Definition mean (l : list Q) : option Q :=
  match l with
  | [] => None
  | _ :: _ => Some (sum l / inject_Z (len l))%Q
  end.

Definition bind {A B : Type} (x : option A) (f : A -> option B) : option B :=
  match x with Some a => f a | None => None end.

Notation "x <- c ;; k" := (bind c (fun x => k))
  (at level 61, c at next level, right associativity).

Definition calc_expectancia (grupo : list Trade) : option Q :=
  let ganhos := map Lucro_Liquido (loc is_gain grupo) in
  let perdas := map Lucro_Liquido (loc is_loss grupo) in
  let n := len grupo in
  if n =? 0 then Some 0%Q
  else
    winrate <- py_div (inject_Z (len ganhos)) (inject_Z n) ;;
    let lossrate := (1 - winrate)%Q in
    avg_gain <- (if len ganhos =? 0 then Some 0%Q else mean ganhos) ;;
    avg_loss <- (if len perdas =? 0 then Some 0%Q
                 else option_map Qabs (mean perdas)) ;;
    Some (winrate * avg_gain - lossrate * avg_loss)%Q.

(** One row of an aggregated table. *)
Record BucketStat := mkStat {
  ordem : Z;                  (* "ordem_faixa" / "ordem_1h" *)
  Faixa : string;             (* "Faixa Horária" / "Faixa 1h" *)
  Soma : Q;                   (* "Soma (pts)" *)
  Expectancia : option Q;     (* "Expectância (pts)" *)
  Qtd_Ops : Z;                (* "Qtd Ops" *)
  Taxa_Acerto : option Q      (* "Taxa Acerto (%)" *)
}.

(** The function applied to each group. *)
Definition agg (label : Z -> string) (k : Z) (g : list Trade) : BucketStat :=
  {| ordem := k;
     Faixa := label k;
     Soma := sum (map Lucro_Liquido g);
     Expectancia := calc_expectancia g;
     Qtd_Ops := len g;
     Taxa_Acerto :=
       option_map (fun m => m * 100)%Q
         (mean (map (fun r => if is_gain r then 1%Q else 0%Q) g)) |}.

(** [groupby([ordem, label]).apply(...).sort_values(ordem)]: the label
    is a function of the slot, so the groups are those of the slot. *)
Definition aggregate (slot : Trade -> Z) (label : Z -> string)
    (rows : list Trade) : list BucketStat :=
  sort_values ordem
    (map (fun g => agg label (fst g) (snd g)) (groupby slot rows)).

Definition df_hor_15 (df : DataFrame) : list BucketStat :=
  aggregate slot_15m Faixa_Horaria (trades df).

Definition df_hor_1h (df : DataFrame) : list BucketStat :=
  aggregate slot_1h Faixa_1h (trades df).

(** Lines 426-432: a row of the 15-minute table with the sum and the
    expectancy of its hour, "Soma_1h (pts)" and "Expectância_1h (pts)";
    [None] is the NaN of a row without a match. *)
Record OverlayStat := mkOverlay {
  stat_15m : BucketStat;
  ordem_1h : Z;
  Soma_1h : option Q;
  Expectancia_1h : option Q
}.

(** [left.merge(right, on="ordem_1h", how="left")]: the rows of the left
    table in order, one per matching row of the right table, or one
    without values when there is no match. *)
Definition merge_left (left right : list BucketStat) : list OverlayStat :=
  flat_map
    (fun l =>
       let h := ordem l / 4 in
       match filter (fun r => ordem r =? h) right with
       | [] => [mkOverlay l h None None]
       | matches =>
           map (fun r => mkOverlay l h (Some (Soma r)) (Expectancia r)) matches
       end)
    left.

Definition df_hor_15_overlay (df : DataFrame) : list OverlayStat :=
  merge_left (df_hor_15 df) (df_hor_1h df).

End Buckets.

(** ** The four series of the comparison page (lines 745-766) *)

Record Config := mkConfig {
  hora1_inicio : time; hora1_fim : time;
  usar_janela2 : bool; hora2_inicio : option time; hora2_fim : option time;
  usar_janela3 : bool; hora3_inicio : option time; hora3_fim : option time;
  limite_perda : Q; objetivo_ganho : Q; loss_consecutivos : Z
}.

Definition df_real (df_filtrado : DataFrame) : DataFrame :=
  set_Total_Parcial_cumsum df_filtrado.

Definition df_janela (c : Config) (df_filtrado : DataFrame) : DataFrame :=
  set_Total_Parcial_cumsum
    (filtrar_por_tres_janelas_abertura (df_real df_filtrado)
       (hora1_inicio c) (hora1_fim c)
       (usar_janela2 c) (hora2_inicio c) (hora2_fim c)
       (usar_janela3 c) (hora3_inicio c) (hora3_fim c)).

(** The caller adds the column when the simulator returned rows without it. *)
Definition ensure_Total_Parcial (df : DataFrame) : DataFrame :=
  if (df_len df >? 0) && negb (has_Total_Parcial df)
  then set_Total_Parcial_cumsum df else df.

Definition df_stop (c : Config) (df_filtrado : DataFrame) : DataFrame :=
  ensure_Total_Parcial
    (simular_stop_diario (df_real df_filtrado)
       (limite_perda c) (objetivo_ganho c) (loss_consecutivos c)).

Definition df_combo (c : Config) (df_filtrado : DataFrame) : DataFrame :=
  ensure_Total_Parcial
    (simular_stop_diario (df_janela c df_filtrado)
       (limite_perda c) (objetivo_ganho c) (loss_consecutivos c)).

(** ** Examples *)

Module Examples.

Definition hm (h m : Z) : time := mkTime h m 0.
Definition at_ (d h m s : Z) (lucro : Q) : Trade :=
  mkTrade (Timestamp.make d h m s) lucro.

Definition day3 : DataFrame :=
  Frame [at_ 10 9 0 0 50; at_ 10 9 30 0 40; at_ 10 10 0 0 20].
Definition losses4 : DataFrame :=
  Frame [at_ 10 9 0 0 (-40); at_ 10 9 30 0 (-40);
         at_ 10 10 0 0 (-40); at_ 10 10 5 0 (-40); at_ 11 9 0 0 7].

(** A zero between two losses: with at most 2 consecutive losses
    allowed the day goes on to its fourth trade. *)
Definition zero_between : DataFrame :=
  Frame [at_ 10 9 0 0 (-10); at_ 10 9 5 0 0; at_ 10 9 10 0 (-10);
         at_ 10 9 15 0 (-10); at_ 10 9 20 0 5].

(** The window 22:00-02:00 wraps midnight. *)
Definition around_the_clock : DataFrame :=
  Frame [at_ 10 1 0 0 1; at_ 10 12 0 0 2; at_ 10 23 0 0 3].

(** An entry in the last second of 10:45. *)
Definition late_entry : DataFrame := Frame [at_ 10 10 45 59 30].

End Examples.

(** * Specification-level definitions *)

(** ** The simulator as specified *)

Module Spec.

(** The calendar date of entry of a trade. *)
Definition entry_date (r : Trade) : Z := Timestamp.date (DataHora r).

(** The trades of the series entered on date [d], in ascending
    entry-time order. *)
Definition day_trades (df : DataFrame) (d : Z) : list Trade :=
  sort_values DataHora (filter (fun r => entry_date r =? d) (trades df)).

(** The calendar dates present in the series, ascending, each once. *)
Definition dates (df : DataFrame) : list Z :=
  group_keys (map entry_date (trades df)).


(** The number of losses at the head of a list of trades. *)
Fixpoint leading_losses (l : list Trade) : Z :=
  match l with
  | [] => 0
  | r :: l' => if is_loss r then leading_losses l' + 1 else 0
  end.

(** The number of trades with a negative net result that immediately
    precede the current point of the day. *)
Definition consecutive_losses (seen : list Trade) : Z :=
  leading_losses (rev seen).



End Spec.

(** The counters of the loop after the trades [seen], from [st]. *)
Definition counters_from (st : DayState) (seen : list Trade) : DayState :=
  fold_left update (map Lucro_Liquido seen) st.

(** What the simulator keeps of one day. *)
Definition kept_of_day (limite objetivo : Q) (n : Z) (df : DataFrame) (d : Z)
  : list Trade :=
  replay (fun r => r) limite objetivo n day_start (Spec.day_trades df d) [].

(** ** The window filter as specified *)

Module WindowSpec.

(** The entry time of day of a trade, in minutes since midnight. *)
Definition time_of_day (r : Trade) : Z :=
  Timestamp.second_of_day (DataHora r) / 60.

(** Membership of the minute [t] in the window from [start] to
    [end_]: a closed interval when [end_ >= start], an interval that
    wraps midnight when [end_ < start]. *)
Definition in_window (start end_ t : Z) : Prop :=
  (end_ >= start -> start <= t <= end_)
  /\ (end_ < start -> t >= start \/ t <= end_).

(** An optional window counts when its flag is set and both bounds
    are given. *)
Definition in_optional_window (active : bool) (start end_ : option time)
    (t : Z) : Prop :=
  active = true
  /\ exists s e, start = Some s /\ end_ = Some e
                 /\ in_window (time_to_minutes s) (time_to_minutes e) t.

End WindowSpec.

(** ** The summary as specified *)

Module SummarySpec.



End SummarySpec.


(** The claim about empty buckets as the specification words it: every
    15-minute bucket without trades has a row in the table, with trade
    count 0 and expectancy 0. *)
Definition empty_buckets_listed (df : DataFrame) : Prop :=
  forall b, 0 <= b < 96 ->
    (forall r, In r (trades df) -> Buckets.slot_15m r <> b) ->
    exists row, In row (Buckets.df_hor_15 df)
                /\ Buckets.ordem row = b /\ Buckets.Qtd_Ops row = 0
                /\ exists e, Buckets.Expectancia row = Some e /\ (e == 0)%Q.

(** * The rest of the page *)

(** ** The window filter with one and two windows (lines 141-155) *)

Definition filtrar_por_duas_janelas_abertura
    (df_in : DataFrame) (hora1_inicio hora1_fim : time)
    (usar_janela2 : bool) (hora2_inicio hora2_fim : option time) : DataFrame :=
  filtrar_por_tres_janelas_abertura df_in hora1_inicio hora1_fim
    usar_janela2 hora2_inicio hora2_fim false None None.

Definition filtrar_por_janela_abertura
    (df_in : DataFrame) (hora_inicio hora_fim : time) : DataFrame :=
  filtrar_por_tres_janelas_abertura df_in hora_inicio hora_fim
    false None None false None None.

(** ** Loading and the period filter (lines 20-40 and 209-220) *)

Module Load.

(** A row of the CSV file: the result of
    [pd.to_datetime(Data + " " + Abertura, errors="coerce")], [None]
    being NaT, and the column "Res. Operação (pts)". *)
Record Raw := mkRaw {
  raw_DataHora : option Timestamp.t;
  raw_Res : Q
}.

(** A row of the loaded table.  The column "Ano-Mes" ([strftime]) is
    not part of the model. *)
Record Operacao := mkOperacao {
  trade : Trade;               (* "DataHora" and "Lucro Líquido (pts)" *)
  Res_Operacao : Q;            (* "Res. Operação (pts)" *)
  Custo_Operacao : Q;          (* "Custo Operação (pts)" *)
  Hora : Timestamp.t           (* "Hora" *)
}.

(** [df.dropna(subset=["DataHora"])]. *)
Fixpoint dropna (rows : list Raw) : list (Timestamp.t * Q) :=
  match rows with
  | [] => []
  | r :: rows' =>
      match raw_DataHora r with
      | Some ts => (ts, raw_Res r) :: dropna rows'
      | None => dropna rows'
      end
  end.

(** The rows that [dropna] drops. *)
Definition is_NaT (r : Raw) : bool :=
  match raw_DataHora r with Some _ => false | None => true end.

(** [dt.floor("H")]. *)
Definition floor_H (ts : Timestamp.t) : Timestamp.t := ts - ts mod 3600.

Definition custo : Q := 25 # 10.

Definition load_data (csv : list Raw) : list Operacao :=
  map (fun r =>
         {| trade := mkTrade (fst r) (snd r - custo)%Q;
            Res_Operacao := snd r;
            Custo_Operacao := custo;
            Hora := floor_H (fst r) |})
      (sort_values fst (dropna csv)).

Definition op_date (o : Operacao) : Z := Timestamp.date (DataHora (trade o)).

(** [Series.min()] and [Series.max()]; [None] on an empty column. *)
Definition col_min (l : list Z) : option Z :=
  match l with
  | [] => None
  | x :: l' => Some (fold_left Z.min l' x)
  end.

Definition col_max (l : list Z) : option Z :=
  match l with
  | [] => None
  | x :: l' => Some (fold_left Z.max l' x)
  end.

(** Lines 209-210. *)
Definition data_min (df : list Operacao) : option Z :=
  option_map Timestamp.date (col_min (map (fun o => DataHora (trade o)) df)).

Definition data_max (df : list Operacao) : option Z :=
  option_map Timestamp.date (col_max (map (fun o => DataHora (trade o)) df)).

(** Line 219: the rows of the period. *)
Definition periodo (df : list Operacao) (data_inicio data_fim : Z)
  : list Operacao :=
  filter (fun o => (op_date o >=? data_inicio) && (op_date o <=? data_fim)) df.

(** Lines 219-220: [df_filtrado], as the frame the other pages read. *)
Definition df_filtrado (df : list Operacao) (data_inicio data_fim : Z)
  : DataFrame :=
  set_Total_Parcial_cumsum (Frame (map trade (periodo df data_inicio data_fim))).

End Load.

(** ** The page "Operações" (lines 239-249) *)

Module Operacoes.

Import Load.




End Operacoes.

(** ** The comparison chart: [plot_patrimonio_4_linhas] (lines 157-203) *)

Module Plot.

(** One [go.Scatter] trace. *)
Record Scatter := mkScatter {
  name : string;
  x : list Timestamp.t;
  y : list Q;
  color : string;
  width : Q
}.

Definition COR_REAL : string := "#000000".
Definition COR_STOPS : string := "#FFD400".
Definition COR_JANELA : string := "#1F77B4".
Definition COR_COMBO : string := "#2CA02C".
Definition W_BASE : Q := 11 # 10.
Definition W_DESTAQUE : Q := 14 # 10.

(** [go.Scatter(x=df["DataHora"], y=df["Total Parcial (pts)"], ...)]:
    reading a column the frame does not have raises KeyError, [None]
    here. *)
Definition scatter (df : DataFrame) (name color : string) (width : Q)
  : option Scatter :=
  match Total_Parcial df with
  | Some col => Some (mkScatter name (map DataHora (trades df)) col color width)
  | None => None
  end.

(** A trace that is added only for a frame that is given and has rows. *)
Definition scatter_if_rows (df : option DataFrame) (name color : string)
    (width : Q) : option (list Scatter) :=
  match df with
  | None => Some []
  | Some d =>
      if df_len d >? 0
      then option_map (fun t => [t]) (scatter d name color width)
      else Some []
  end.

Definition plot_patrimonio_4_linhas
    (df_real : DataFrame) (df_stop : option DataFrame)
    (df_janela : DataFrame) (df_combo : option DataFrame)
  : option (list Scatter) :=
  match scatter df_real "Real" COR_REAL W_DESTAQUE with
  | None => None
  | Some t_real =>
  match scatter_if_rows df_stop "Só Stops" COR_STOPS W_BASE with
  | None => None
  | Some t_stop =>
  match scatter df_janela "Só Janela" COR_JANELA W_BASE with
  | None => None
  | Some t_janela =>
  match scatter_if_rows df_combo "Stops + Janela" COR_COMBO W_DESTAQUE with
  | None => None
  | Some t_combo => Some ([t_real] ++ t_stop ++ [t_janela] ++ t_combo)
  end end end end.

End Plot.

(** ** The tick labels of the bucket charts (lines 443-456) *)

Module Ticks.

(** [iloc[::4]]: the rows at positions 0, 4, 8, ... *)
Fixpoint iloc_step4 {A : Type} (l : list A) : list A :=
  match l with
  | a :: l' =>
      a :: match l' with
           | _ :: _ :: _ :: l'' => iloc_step4 l''
           | _ => []
           end
  | [] => []
  end.

Definition label_hora (slot_15m : Z) : string :=
  (Buckets.astype_str (slot_15m / 4) ++ "h–"
   ++ Buckets.astype_str (slot_15m / 4 + 1) ++ "h")%string.

Definition tickvals_1h (df_hor_15 : list Buckets.OverlayStat) : list string :=
  iloc_step4 (map (fun r => Buckets.Faixa (Buckets.stat_15m r)) df_hor_15).

Definition ticktext_1h (df_hor_15 : list Buckets.OverlayStat) : list string :=
  map label_hora
    (iloc_step4 (map (fun r => Buckets.ordem (Buckets.stat_15m r)) df_hor_15)).

(** The 96 slots of a day and its 24 hours. *)
Definition all_slots : list Z := map Z.of_nat (seq 0 96).
Definition all_hours : list Z := map Z.of_nat (seq 0 24).

(** A series with one trade in each of the 96 buckets. *)
Definition every_quarter : DataFrame :=
  Frame (map (fun b => mkTrade (Timestamp.make 10 (b / 4) (15 * (b mod 4)) 0) 1)
             all_slots).

End Ticks.

(** ** More example data *)

Module Examples2.

(** Three rows of a file, the second with a date that does not parse. *)
Definition csv3 : list Load.Raw :=
  [Load.mkRaw (Some (Timestamp.make 11 9 0 0)) 10;
   Load.mkRaw None 99;
   Load.mkRaw (Some (Timestamp.make 10 9 30 0)) (-5)].

(** The row of the 09:00 bucket of [Examples.losses4]. *)
Definition row_0900 : Buckets.BucketStat :=
  Buckets.agg Buckets.Faixa_Horaria 36
    (group_of Buckets.slot_15m 36 (trades Examples.losses4)).



End Examples2.

(** ** What the column "Total Parcial (pts)" is meant to hold *)

(** The cells of the column, when the frame has it, are the running
    sums of the net results of the rows in row order. *)
Definition running_total (df : DataFrame) : Prop :=
  forall col, Total_Parcial df = Some col ->
    length col = length (trades df)
    /\ forall i, (i < length col)%nat ->
         (nth i col 0 == sum (map Lucro_Liquido (firstn (S i) (trades df))))%Q.

(** * Properties *)

(** ** Comparisons of points *)




(** ** Lists, sorting and grouping *)

Section SortingFacts.

Context {A : Type} (key : A -> Z).

Lemma insert_sorted_perm x l : Permutation (insert_sorted key x l) (x :: l).
Proof.
  induction l as [|y l IH]; simpl; [reflexivity|].
  destruct (key x <=? key y); [reflexivity|].
  rewrite IH. apply perm_swap.
Qed.

Lemma sort_values_perm l : Permutation (sort_values key l) l.
Proof.
  induction l as [|x l IH]; simpl; [constructor|].
  rewrite insert_sorted_perm. now constructor.
Qed.

Lemma sort_values_length l : length (sort_values key l) = length l.
Proof. apply Permutation_length, sort_values_perm. Qed.

Lemma sort_values_In x l : In x (sort_values key l) <-> In x l.
Proof.
  split; apply Permutation_in;
    [apply sort_values_perm | symmetry; apply sort_values_perm].
Qed.

Lemma insert_sorted_ascending x l :
  ascending key l -> ascending key (insert_sorted key x l).
Proof.
  unfold ascending.
  induction l as [|y l IH]; simpl; intros Hl.
  - repeat constructor.
  - destruct (Z.leb_spec (key x) (key y)) as [Hxy|Hxy].
    + constructor; [assumption|].
      inversion Hl as [|? ? _ Hall]; subst.
      constructor; [assumption|].
      eapply Forall_impl; [|exact Hall]. simpl; intros; lia.
    + inversion Hl as [|? ? Hs Hall]; subst.
      constructor; [now apply IH|].
      rewrite Forall_forall in *. intros z Hz.
      apply (Permutation_in _ (insert_sorted_perm x l)) in Hz.
      destruct Hz as [<-|Hz]; [lia|now apply Hall].
Qed.

Lemma sort_values_ascending l : ascending key (sort_values key l).
Proof.
  induction l as [|x l IH]; simpl; [constructor|].
  now apply insert_sorted_ascending.
Qed.

(** Sorting a frame that is already in order changes nothing. *)
Lemma sort_values_id l : ascending key l -> sort_values key l = l.
Proof.
  unfold ascending.
  induction l as [|x l IH]; simpl; intros Hl; [reflexivity|].
  inversion Hl as [|? ? Hs Hall]; subst.
  rewrite (IH Hs).
  destruct l as [|y l]; simpl; [reflexivity|].
  inversion Hall as [|? ? Hxy _]; subst.
  destruct (Z.leb_spec (key x) (key y)); [reflexivity|lia].
Qed.

Lemma ascending_app l1 l2 :
  ascending key l1 -> ascending key l2 ->
  (forall a b, In a l1 -> In b l2 -> key a <= key b) ->
  ascending key (l1 ++ l2).
Proof.
  unfold ascending.
  induction l1 as [|x l1 IH]; simpl; intros H1 H2 H12; [assumption|].
  inversion H1 as [|? ? Hs Hall]; subst.
  constructor.
  - apply IH; auto.
  - apply Forall_app; split; [assumption|].
    rewrite Forall_forall. intros b Hb. apply H12; auto.
Qed.

Lemma ascending_prefix l1 l2 : ascending key (l1 ++ l2) -> ascending key l1.
Proof.
  unfold ascending.
  induction l1 as [|x l1 IH]; simpl; intros H; [constructor|].
  inversion H as [|? ? Hs Hall]; subst.
  constructor; [now apply IH|].
  apply Forall_app in Hall. tauto.
Qed.

End SortingFacts.

Section MapFacts.

Context {A B : Type} (f : A -> B).

Lemma sort_values_map (key : B -> Z) l :
  map f (sort_values (fun a => key (f a)) l) = sort_values key (map f l).
Proof.
  induction l as [|x l IH]; simpl; [reflexivity|].
  rewrite <- IH. generalize (sort_values (fun a => key (f a)) l) as s.
  induction s as [|y s IHs]; simpl; [reflexivity|].
  destruct (key (f x) <=? key (f y)); simpl; [reflexivity|].
  now rewrite IHs.
Qed.

Lemma filter_map (p : B -> bool) l :
  map f (filter (fun a => p (f a)) l) = filter p (map f l).
Proof.
  induction l as [|x l IH]; simpl; [reflexivity|].
  destruct (p (f x)); simpl; now rewrite IH.
Qed.

End MapFacts.

(** The keys of a [groupby] are the keys present, each once, ascending. *)
Lemma insert_key_In x k ks : In x (insert_key k ks) <-> x = k \/ In x ks.
Proof.
  induction ks as [|k' ks IH]; simpl.
  - intuition.
  - destruct (Z.ltb_spec k k'); simpl; [intuition|].
    destruct (Z.eqb_spec k k'); simpl.
    + subst. intuition.
    + rewrite IH. intuition.
Qed.

Lemma group_keys_In k l : In k (group_keys l) <-> In k l.
Proof.
  induction l as [|x l IH]; simpl; [tauto|].
  rewrite insert_key_In, IH. intuition.
Qed.

Lemma insert_key_increasing k ks :
  StronglySorted Z.lt ks -> StronglySorted Z.lt (insert_key k ks).
Proof.
  induction ks as [|k' ks IH]; simpl; intros Hs.
  - repeat constructor.
  - inversion Hs as [|? ? Hs' Hall]; subst.
    destruct (Z.ltb_spec k k').
    + constructor; [assumption|].
      constructor; [assumption|].
      eapply Forall_impl; [|exact Hall]. simpl; intros; lia.
    + destruct (Z.eqb_spec k k'); [assumption|].
      constructor; [now apply IH|].
      rewrite Forall_forall in *. intros z Hz.
      apply insert_key_In in Hz. destruct Hz as [->|Hz]; [lia|now apply Hall].
Qed.

Lemma group_keys_increasing l : StronglySorted Z.lt (group_keys l).
Proof.
  induction l as [|x l IH]; simpl; [constructor|].
  now apply insert_key_increasing.
Qed.

Lemma increasing_NoDup ks : StronglySorted Z.lt ks -> NoDup ks.
Proof.
  induction 1 as [|k ks Hs IH Hall]; constructor; [|assumption].
  intros Hin. rewrite Forall_forall in Hall. specialize (Hall _ Hin). lia.
Qed.

Lemma group_keys_NoDup l : NoDup (group_keys l).
Proof. apply increasing_NoDup, group_keys_increasing. Qed.

(** ** The replay loop *)

Section ReplayFacts.

Context {A : Type} (trade_of : A -> Trade).
Variables (limite objetivo : Q) (n : Z).

Local Abbreviation replay' := (replay trade_of limite objetivo n).

(** The loop only appends to the shared list. *)
Lemma replay_linhas st grupo linhas :
  replay' st grupo linhas = linhas ++ replay' st grupo [].
Proof.
  revert st linhas.
  induction grupo as [|row rest IH]; intros st linhas; simpl.
  - now rewrite app_nil_r.
  - destruct (stop_hit limite objetivo n (update st (row_lucro trade_of row))).
    + reflexivity.
    + rewrite IH, (IH _ [row]). now rewrite <- app_assoc.
Qed.

(** The outer loop appends one block per group. *)
Lemma fold_replay (groups : list (Z * list A)) linhas :
  fold_left
    (fun linhas g =>
       replay' day_start (sort_values (row_DataHora trade_of) (snd g)) linhas)
    groups linhas
  = linhas ++
    concat
      (map (fun g =>
              replay' day_start
                (sort_values (row_DataHora trade_of) (snd g)) [])
           groups).
Proof.
  revert linhas.
  induction groups as [|g groups IH]; intros linhas; simpl.
  - now rewrite app_nil_r.
  - rewrite IH, replay_linhas. now rewrite <- app_assoc.
Qed.

(** The rows kept: one block per day, days ascending. *)
Lemma simular_linhas_concat rows :
  simular_linhas trade_of limite objetivo n rows
  = concat
      (map (fun k =>
              replay' day_start
                (sort_values (row_DataHora trade_of)
                   (filter (fun r => row_Data trade_of r =? k) rows)) [])
           (group_keys (map (row_Data trade_of) rows))).
Proof.
  unfold simular_linhas, groupby.
  rewrite fold_replay, map_map. reflexivity.
Qed.

End ReplayFacts.

Section ReplayTrades.

Context {A : Type} (trade_of : A -> Trade).
Variables (limite objetivo : Q) (n : Z).

Local Abbreviation replay' := (replay trade_of limite objetivo n).

(** Reading the trades of the rows commutes with the loop. *)
Lemma replay_trade_of st grupo :
  map trade_of (replay' st grupo [])
  = replay (fun r => r) limite objetivo n st (map trade_of grupo) [].
Proof.
  revert st.
  induction grupo as [|row rest IH]; intros st; simpl; [reflexivity|].
  unfold row_lucro at 1 3. simpl.
  destruct (stop_hit limite objetivo n
              (update st (Lucro_Liquido (trade_of row)))); [reflexivity|].
  rewrite replay_linhas, (replay_linhas (fun r => r) _ _ _ _ _ [_]).
  rewrite map_app, IH. reflexivity.
Qed.

Lemma simular_linhas_trade_of rows :
  map trade_of (simular_linhas trade_of limite objetivo n rows)
  = simular_linhas (fun r => r) limite objetivo n (map trade_of rows).
Proof.
  rewrite !simular_linhas_concat.
  rewrite concat_map, map_map.
  assert (Hk : map (row_Data (fun r => r)) (map trade_of rows)
               = map (row_Data trade_of) rows) by (now rewrite map_map).
  rewrite Hk. f_equal. apply map_ext. intros k.
  rewrite replay_trade_of. f_equal.
  unfold row_DataHora.
  rewrite (sort_values_map trade_of DataHora). f_equal.
  apply (filter_map trade_of (fun t => Timestamp.date (DataHora t) =? k)).
Qed.

End ReplayTrades.


Lemma counters_from_snoc st seen r :
  counters_from st (seen ++ [r]) = update (counters_from st seen) (Lucro_Liquido r).
Proof. unfold counters_from. now rewrite map_app, fold_left_app. Qed.



Lemma counters_perdas seen :
  perdas_consecutivas (counters_from day_start seen)
  = Spec.consecutive_losses seen.
Proof.
  induction seen as [|r seen IH] using rev_ind.
  - reflexivity.
  - rewrite counters_from_snoc. simpl. rewrite IH.
    unfold Spec.consecutive_losses. rewrite rev_app_distr. simpl.
    unfold is_loss. now destruct (Qltb (Lucro_Liquido r) 0).
Qed.


(** The inner loop keeps a prefix of the day that ends at the first
    trade after which a guard holds. *)
Lemma replay_prefix limite objetivo n grupo : forall st,
  let kept := replay (fun r => r) limite objetivo n st grupo [] in
  exists discarded,
    grupo = kept ++ discarded
    /\ (forall p q, kept = p ++ q -> p <> [] -> q <> [] ->
          stop_hit limite objetivo n (counters_from st p) = false)
    /\ (discarded <> [] ->
          stop_hit limite objetivo n (counters_from st kept) = true)
    /\ (grupo <> [] -> kept <> []).
Proof.
  induction grupo as [|row rest IH]; intros st; simpl.
  - exists []. repeat split; try congruence.
    intros p q Hpq Hp _. symmetry in Hpq.
    apply app_eq_nil in Hpq. tauto.
  - unfold row_lucro.
    destruct (stop_hit limite objetivo n (update st (Lucro_Liquido row))) eqn:Hstop.
    + exists rest. split; [reflexivity|]. split; [|split].
      * intros p q Hpq Hp Hq.
        destruct p as [|a p]; [congruence|].
        destruct q as [|b q]; [congruence|].
        simpl in Hpq. injection Hpq as _ Hpq.
        destruct p; discriminate.
      * intros _. exact Hstop.
      * discriminate.
    + rewrite replay_linhas.
      destruct (IH (update st (Lucro_Liquido row)))
        as (discarded & Hsplit & Hbefore & Hlast & _).
      exists discarded. split; [|split; [|split]].
      * simpl. now rewrite <- Hsplit.
      * intros p q Hpq Hp Hq.
        destruct p as [|a p]; [congruence|].
        simpl in Hpq. injection Hpq as <- Hpq.
        destruct p as [|b p]; [exact Hstop|].
        apply (Hbefore (b :: p) q); congruence.
      * intros Hd. apply Hlast, Hd.
      * discriminate.
Qed.


(** ** Frames *)

Lemma cumsum_from_length acc l : length (cumsum_from acc l) = length l.
Proof.
  revert acc. induction l as [|x l IH]; intros acc; simpl; [reflexivity|].
  now rewrite IH.
Qed.

Lemma map_fst_combine {A B : Type} (l : list A) (l' : list B) :
  length l = length l' -> map fst (combine l l') = l.
Proof.
  revert l'. induction l as [|x l IH]; intros [|y l'] Hlen; simpl in *;
    try discriminate; try reflexivity.
  f_equal. apply IH. congruence.
Qed.

Lemma trades_set_Total_Parcial_cumsum df :
  trades (set_Total_Parcial_cumsum df) = trades df.
Proof.
  unfold set_Total_Parcial_cumsum. simpl.
  apply map_fst_combine.
  unfold cumsum. now rewrite cumsum_from_length, length_map.
Qed.

Lemma trades_df_sort_values df :
  trades (df_sort_values_DataHora df) = sort_values DataHora (trades df).
Proof.
  destruct df as [rows|rows]; simpl; [reflexivity|].
  apply (sort_values_map fst DataHora).
Qed.

Lemma trades_df_loc mask df :
  trades (df_loc mask df) = filter mask (trades df).
Proof.
  destruct df as [rows|rows]; simpl; [reflexivity|].
  apply (filter_map fst mask).
Qed.

Lemma trades_DataFrame_of_TP_rows linhas :
  trades (DataFrame_of_TP_rows linhas) = map fst linhas.
Proof. now destruct linhas. Qed.

Lemma len_pos_false {A : Type} (l : list A) : (len l >? 0) = false -> l = [].
Proof.
  unfold len. destruct l; [reflexivity|]. simpl length.
  intros H. rewrite Z.gtb_ltb, Z.ltb_ge in H. lia.
Qed.

(** The trades of the simulated frame: the kept rows, sorted. *)
Lemma trades_simular_stop_diario df limite objetivo n :
  trades (simular_stop_diario df limite objetivo n)
  = sort_values DataHora
      (simular_linhas (fun r => r) limite objetivo n (trades df)).
Proof.
  unfold simular_stop_diario.
  set (df_sim := match df with Frame _ => _ | FrameTP _ => _ end).
  assert (Hsim : trades df_sim
                  = simular_linhas (fun r => r) limite objetivo n (trades df)).
  { subst df_sim. destruct df as [rows|rows]; simpl trades at 2.
    - reflexivity.
    - rewrite trades_DataFrame_of_TP_rows. apply simular_linhas_trade_of. }
  unfold df_len. destruct (len (trades df_sim) >? 0) eqn:Hlen.
  - now rewrite trades_set_Total_Parcial_cumsum, trades_df_sort_values, Hsim.
  - apply len_pos_false in Hlen. rewrite <- Hsim, Hlen. reflexivity.
Qed.

(** ** The kept rows are already in entry-time order *)

Lemma date_lt_DataHora_lt a b :
  Timestamp.date a < Timestamp.date b -> a < b.
Proof.
  unfold Timestamp.date. intros H.
  destruct (Z.lt_ge_cases a b) as [|Hba]; [assumption|].
  apply (Z.div_le_mono _ _ 86400) in Hba; lia.
Qed.

Lemma concat_blocks_ascending (block : Z -> list Trade) ks :
  StronglySorted Z.lt ks ->
  (forall k, ascending DataHora (block k)) ->
  (forall k r, In r (block k) -> Spec.entry_date r = k) ->
  ascending DataHora (concat (map block ks)).
Proof.
  intros Hks Hasc Hdate.
  induction Hks as [|k ks Hs IH Hall]; simpl; [constructor|].
  apply ascending_app; [apply Hasc | exact IH |].
  intros a b Ha Hb.
  apply in_concat in Hb. destruct Hb as (l & Hl & Hb).
  apply in_map_iff in Hl. destruct Hl as (k' & <- & Hk').
  rewrite Forall_forall in Hall. specialize (Hall _ Hk').
  apply Hdate in Ha, Hb. unfold Spec.entry_date in *.
  apply Z.lt_le_incl, date_lt_DataHora_lt. lia.
Qed.

(** What the replay keeps of a group is a prefix of the group. *)
Lemma replay_is_prefix limite objetivo n grupo :
  exists discarded,
    grupo = replay (fun r => r) limite objetivo n day_start grupo [] ++ discarded.
Proof.
  destruct (replay_prefix limite objetivo n grupo day_start) as (d & H & _).
  now exists d.
Qed.

Lemma simular_linhas_ascending limite objetivo n rows :
  ascending DataHora (simular_linhas (fun r => r) limite objetivo n rows).
Proof.
  rewrite simular_linhas_concat.
  apply (concat_blocks_ascending
           (fun k => replay (fun r => r) limite objetivo n day_start
                       (sort_values DataHora
                          (filter (fun r => Spec.entry_date r =? k) rows)) [])).
  - apply group_keys_increasing.
  - intros k.
    match goal with |- ascending _ (replay _ _ _ _ _ ?g _) =>
      destruct (replay_is_prefix limite objetivo n g) as (d & Hd);
      apply (ascending_prefix _ _ d); rewrite <- Hd
    end.
    apply sort_values_ascending.
  - intros k r Hr.
    match type of Hr with In _ (replay _ _ _ _ _ ?g _) =>
      destruct (replay_is_prefix limite objetivo n g) as (d & Hd);
      assert (Hin : In r g) by (rewrite Hd; apply in_or_app; now left)
    end.
    apply sort_values_In, filter_In in Hin.
    destruct Hin as [_ Hk]. now apply Z.eqb_eq.
Qed.

(** ** The daily stop simulator *)


Lemma trades_simular_by_day df limite objetivo n :
  trades (simular_stop_diario df limite objetivo n)
  = concat (map (kept_of_day limite objetivo n df) (Spec.dates df)).
Proof.
  rewrite trades_simular_stop_diario.
  rewrite sort_values_id by apply simular_linhas_ascending.
  apply simular_linhas_concat.
Qed.

Lemma dates_present df d :
  In d (Spec.dates df)
  <-> exists r, In r (trades df) /\ Spec.entry_date r = d.
Proof.
  unfold Spec.dates. rewrite group_keys_In, in_map_iff.
  split; intros (r & H1 & H2); exists r; tauto.
Qed.

Lemma day_trades_In df d r :
  In r (Spec.day_trades df d) <-> In r (trades df) /\ Spec.entry_date r = d.
Proof.
  unfold Spec.day_trades. rewrite sort_values_In, filter_In, Z.eqb_eq. tauto.
Qed.


(** C8: whatever the thresholds, the first trade of every calendar day
    of the input is in the output, and the output is not empty when the
    input is not. *)
Theorem simular_stop_diario_keeps_first_trade_of_day
    (df : DataFrame) (limite objetivo : Q) (n : Z) :
  (forall d first rest,
      Spec.day_trades df d = first :: rest ->
      In first (trades (simular_stop_diario df limite objetivo n)))
  /\ (trades df <> [] ->
      trades (simular_stop_diario df limite objetivo n) <> []).
Proof.
  assert (Hfirst : forall d first rest,
             Spec.day_trades df d = first :: rest ->
             In first (trades (simular_stop_diario df limite objetivo n))).
  { intros d first rest Hday.
    rewrite trades_simular_by_day. apply in_concat.
    exists (kept_of_day limite objetivo n df d). split.
    - apply in_map, dates_present. exists first.
      apply day_trades_In. rewrite Hday. now left.
    - unfold kept_of_day.
      destruct (replay_prefix limite objetivo n (Spec.day_trades df d) day_start)
        as (discarded & Hsplit & _ & _ & Hne).
      cbv zeta in Hsplit, Hne. rewrite Hday in Hsplit, Hne |- *.
      destruct (replay _ _ _ _ _ (first :: rest) []) as [|a kept].
      + exfalso. apply Hne; [discriminate|reflexivity].
      + simpl in Hsplit. injection Hsplit as -> _. now left. }
  split; [exact Hfirst|].
  intros Hne Hout.
  destruct (trades df) as [|r0 rows] eqn:Hrows; [congruence|].
  assert (Hin : In r0 (Spec.day_trades df (Spec.entry_date r0))).
  { apply day_trades_In. rewrite Hrows. split; [now left|reflexivity]. }
  destruct (Spec.day_trades df (Spec.entry_date r0)) as [|first rest] eqn:Hday;
    [contradiction|].
  specialize (Hfirst _ _ _ Hday). rewrite Hout in Hfirst. contradiction.
Qed.

(** C7: a trade whose net result is exactly 0 is not a loss, and after
    it the consecutive-loss counter is 0, whatever the counters were and
    wherever in the day the trade stands. *)
Theorem zero_net_result_resets_consecutive_losses
    (st : DayState) (seen : list Trade) (r : Trade) :
  (Lucro_Liquido r == 0)%Q ->
  is_loss r = false
  /\ perdas_consecutivas (update st (Lucro_Liquido r)) = 0
  /\ perdas_consecutivas (counters_from day_start (seen ++ [r])) = 0
  /\ Spec.consecutive_losses (seen ++ [r]) = 0.
Proof.
  intros Hzero.
  assert (Hloss : Qltb (Lucro_Liquido r) 0 = false).
  { unfold Qltb. apply negb_false_iff, Qle_bool_iff.
    rewrite Hzero. apply Qle_refl. }
  split; [exact Hloss|].
  split; [simpl; now rewrite Hloss|].
  rewrite <- counters_perdas, counters_from_snoc. simpl.
  now rewrite Hloss.
Qed.

(** ** Trade counts *)

Section Counting.

Context {A : Type} (key : A -> Z).

Lemma group_of_cons k r rows :
  length (group_of key k (r :: rows))
  = ((if (key r =? k)%Z then 1 else 0) + length (group_of key k rows))%nat.
Proof. unfold group_of. simpl. now destruct (key r =? k). Qed.

(** A row is in the group of at most one of distinct keys. *)
Lemma membership_le_1 (x : Z) ks :
  NoDup ks ->
  (list_sum (map (fun k => if (x =? k)%Z then 1 else 0) ks) <= 1)%nat.
Proof.
  induction 1 as [|k ks Hk Hks IH]; simpl; [lia|].
  destruct (Z.eqb_spec x k) as [->|Hne]; [|lia].
  assert (Hzero : list_sum (map (fun k0 => if k =? k0 then 1%nat else 0%nat) ks)
                  = 0%nat).
  { clear IH Hks. induction ks as [|k0 ks IH]; simpl; [reflexivity|].
    destruct (Z.eqb_spec k k0) as [->|_]; [exfalso; apply Hk; now left|].
    apply IH. intros Hin. apply Hk. now right. }
  lia.
Qed.

Lemma list_sum_plus {B : Type} (f g : B -> nat) l :
  list_sum (map (fun x => f x + g x)%nat l)
  = (list_sum (map f l) + list_sum (map g l))%nat.
Proof. induction l as [|x l IH]; simpl; [reflexivity|]. rewrite IH. lia. Qed.

(** The groups of distinct keys do not share rows. *)
Lemma groups_length_le ks (rows : list A) :
  NoDup ks ->
  (list_sum (map (fun k => length (group_of key k rows)) ks) <= length rows)%nat.
Proof.
  intros Hks. induction rows as [|r rows IH].
  - simpl. induction ks as [|k ks IHks]; simpl; [lia|].
    inversion Hks; subst. now apply IHks.
  - rewrite (map_ext _ _ (fun k => group_of_cons k r rows)).
    rewrite list_sum_plus.
    pose proof (membership_le_1 (key r) ks Hks). simpl length. lia.
Qed.

End Counting.

Lemma length_concat_map {A B : Type} (f : A -> list B) l :
  length (concat (map f l)) = list_sum (map (fun x => length (f x)) l).
Proof.
  induction l as [|x l IH]; simpl; [reflexivity|].
  now rewrite length_app, IH.
Qed.

Lemma list_sum_le {A : Type} (f g : A -> nat) l :
  (forall x, f x <= g x)%nat ->
  (list_sum (map f l) <= list_sum (map g l))%nat.
Proof.
  intros Hfg. induction l as [|x l IH]; simpl; [lia|].
  specialize (Hfg x). lia.
Qed.

Lemma kept_of_day_length limite objetivo n df d :
  (length (kept_of_day limite objetivo n df d)
   <= length (group_of Spec.entry_date d (trades df)))%nat.
Proof.
  unfold kept_of_day.
  destruct (replay_is_prefix limite objetivo n (Spec.day_trades df d)) as (x & Hx).
  apply (f_equal (@length _)) in Hx. rewrite length_app in Hx.
  unfold Spec.day_trades in Hx at 1. rewrite sort_values_length in Hx.
  unfold group_of. lia.
Qed.

(** The simulator never adds rows. *)
Lemma simular_stop_diario_len df limite objetivo n :
  df_len (simular_stop_diario df limite objetivo n) <= df_len df.
Proof.
  unfold df_len, len. apply Nat2Z.inj_le.
  rewrite trades_simular_by_day, length_concat_map.
  etransitivity; [apply list_sum_le, kept_of_day_length|].
  apply (groups_length_le Spec.entry_date), group_keys_NoDup.
Qed.

(** Neither does the window filter. *)
Lemma trades_filtrar df h1i h1f u2 h2i h2f u3 h3i h3f :
  trades (filtrar_por_tres_janelas_abertura df h1i h1f u2 h2i h2f u3 h3i h3f)
  = sort_values DataHora
      (filter (fun r => mask_final h1i h1f u2 h2i h2f u3 h3i h3f
                          (mins_abertura (DataHora r)))
              (trades df)).
Proof.
  unfold filtrar_por_tres_janelas_abertura.
  now rewrite trades_df_sort_values, trades_df_loc.
Qed.

Lemma filtrar_len df h1i h1f u2 h2i h2f u3 h3i h3f :
  df_len (filtrar_por_tres_janelas_abertura df h1i h1f u2 h2i h2f u3 h3i h3f)
  <= df_len df.
Proof.
  unfold df_len, len. apply Nat2Z.inj_le.
  rewrite trades_filtrar, sort_values_length. apply filter_length_le.
Qed.

Lemma ensure_Total_Parcial_trades df :
  trades (ensure_Total_Parcial df) = trades df.
Proof.
  unfold ensure_Total_Parcial.
  destruct (_ && _); [apply trades_set_Total_Parcial_cumsum|reflexivity].
Qed.

(** C6: for a fixed configuration the combined series (window filter,
    then stop simulator) has at most as many trades as the
    window-filtered series, which has at most as many as the unfiltered
    series. *)
Theorem combo_le_janela_le_real (c : Config) (df_filtrado : DataFrame) :
  df_len (df_combo c df_filtrado) <= df_len (df_janela c df_filtrado)
  /\ df_len (df_janela c df_filtrado) <= df_len (df_real df_filtrado).
Proof.
  split.
  - unfold df_combo, df_len at 1.
    rewrite ensure_Total_Parcial_trades. apply simular_stop_diario_len.
  - unfold df_janela, df_len at 1.
    rewrite trades_set_Total_Parcial_cumsum. apply filtrar_len.
Qed.

(** ** The column "Total Parcial (pts)" of the simulated frame *)

Lemma map_snd_combine {A B : Type} (l : list A) (l' : list B) :
  length l = length l' -> map snd (combine l l') = l'.
Proof.
  revert l'. induction l as [|x l IH]; intros [|y l'] Hlen; simpl in *;
    try discriminate; try reflexivity.
  f_equal. apply IH. congruence.
Qed.

Lemma Total_Parcial_set_cumsum df :
  Total_Parcial (set_Total_Parcial_cumsum df)
  = Some (cumsum (map Lucro_Liquido (trades df))).
Proof.
  unfold set_Total_Parcial_cumsum. simpl. f_equal.
  apply map_snd_combine.
  unfold cumsum. now rewrite cumsum_from_length, length_map.
Qed.

(** The simulator returns either rows with the recomputed column or the
    frame without rows and without columns. *)
Lemma simular_stop_diario_cases df limite objetivo n :
  let out := simular_stop_diario df limite objetivo n in
  (trades out <> []
   /\ has_Total_Parcial out = true
   /\ Total_Parcial out = Some (cumsum (map Lucro_Liquido (trades out))))
  \/ out = Frame [].
Proof.
  unfold simular_stop_diario.
  set (df_sim := match df with Frame _ => _ | FrameTP _ => _ end).
  cbv zeta. unfold df_len.
  destruct (len (trades df_sim) >? 0) eqn:Hlen.
  - left. rewrite trades_set_Total_Parcial_cumsum, Total_Parcial_set_cumsum.
    repeat split.
    rewrite trades_df_sort_values. intros Hnil.
    apply (f_equal (@length _)) in Hnil.
    rewrite sort_values_length in Hnil.
    unfold len in Hlen. rewrite Hnil in Hlen. discriminate.
  - right. apply len_pos_false in Hlen. subst df_sim.
    destruct df as [rows|rows]; simpl in Hlen |- *.
    + now rewrite Hlen.
    + destruct (simular_linhas fst limite objetivo n rows);
        [reflexivity|discriminate].
Qed.

(** C10: the output of the simulator carries the column
    "Total Parcial (pts)" exactly when it has at least one row, the
    column is then the running sum of the net results of the output
    rows, and on an input without rows the output is the frame without
    rows and without that column. *)
Theorem simular_stop_diario_Total_Parcial
    (df : DataFrame) (limite objetivo : Q) (n : Z) :
  let out := simular_stop_diario df limite objetivo n in
  (has_Total_Parcial out = true <-> trades out <> [])
  /\ (trades out <> [] ->
      Total_Parcial out = Some (cumsum (map Lucro_Liquido (trades out))))
  /\ (trades df = [] -> out = Frame [] /\ has_Total_Parcial out = false).
Proof.
  cbv zeta.
  destruct (simular_stop_diario_cases df limite objetivo n)
    as [(Hne & Hhas & Hcol)|Hempty].
  - split; [tauto|]. split; [tauto|].
    intros Hin. exfalso. apply Hne.
    pose proof (simular_stop_diario_len df limite objetivo n) as Hle.
    unfold df_len, len in Hle. rewrite Hin in Hle.
    destruct (trades (simular_stop_diario df limite objetivo n));
      [reflexivity|simpl in Hle; lia].
  - rewrite Hempty. simpl. repeat split; try congruence; try tauto.
Qed.

(** ** The window filter *)


Lemma mins_abertura_time_of_day r :
  mins_abertura (DataHora r) = WindowSpec.time_of_day r
  /\ 0 <= WindowSpec.time_of_day r <= 1439.
Proof.
  unfold mins_abertura, WindowSpec.time_of_day, Timestamp.hour,
    Timestamp.minute, Timestamp.second_of_day.
  generalize (DataHora r) as ts. intros ts.
  pose proof (Z.mod_pos_bound ts 86400 ltac:(lia)) as Hsod.
  set (sod := ts mod 86400) in *. clearbody sod.
  split.
  - Z.div_mod_to_equations. lia.
  - Z.div_mod_to_equations. lia.
Qed.

Lemma mask_janela_iff mins ini fim :
  mask_janela mins ini fim = true <-> WindowSpec.in_window ini fim mins.
Proof.
  unfold mask_janela, WindowSpec.in_window.
  destruct (Z.geb_spec fim ini).
  - rewrite andb_true_iff, !Z.geb_le, Z.leb_le. lia.
  - rewrite orb_true_iff, !Z.geb_le, Z.leb_le. lia.
Qed.

Lemma mask_opcional_iff usar inicio fim mins :
  mask_opcional usar inicio fim mins = true
  <-> WindowSpec.in_optional_window usar inicio fim mins.
Proof.
  unfold mask_opcional, WindowSpec.in_optional_window.
  destruct usar, inicio as [i|], fim as [f|];
    try (split; [discriminate|intros (Hu & s & e & Hs & He & _); congruence]).
  rewrite mask_janela_iff. split.
  - intros H. split; [reflexivity|]. now exists i, f.
  - intros (_ & s & e & Hs & He & H). congruence.
Qed.

(** C2: the window filter keeps a trade of the series if and only if its
    entry time of day, in minutes since midnight (between 0 and 1439),
    lies in window 1 or in window 2 or in window 3, where windows 2 and
    3 count only when their flag is set and both bounds are given, a
    window with end >= start is the closed interval and a window with
    end < start wraps midnight. *)
Theorem filtrar_por_tres_janelas_abertura_keeps
    (df : DataFrame) (h1i h1f : time)
    (u2 : bool) (h2i h2f : option time) (u3 : bool) (h3i h3f : option time)
    (r : Trade) :
  let t := WindowSpec.time_of_day r in
  0 <= t <= 1439
  /\ (In r (trades (filtrar_por_tres_janelas_abertura
                      df h1i h1f u2 h2i h2f u3 h3i h3f))
      <-> In r (trades df)
          /\ (WindowSpec.in_window (time_to_minutes h1i) (time_to_minutes h1f) t
              \/ WindowSpec.in_optional_window u2 h2i h2f t
              \/ WindowSpec.in_optional_window u3 h3i h3f t)).
Proof.
  intros t. destruct (mins_abertura_time_of_day r) as [Hmins Hrange].
  split; [exact Hrange|].
  rewrite trades_filtrar, sort_values_In, filter_In.
  unfold mask_final. rewrite Hmins. fold t.
  rewrite !orb_true_iff, mask_janela_iff, !mask_opcional_iff. tauto.
Qed.

Lemma mins_abertura_make d h m s :
  0 <= h < 24 -> 0 <= m < 60 -> 0 <= s < 60 ->
  mins_abertura (Timestamp.make d h m s) = h * 60 + m.
Proof.
  intros Hh Hm Hs.
  unfold mins_abertura, Timestamp.hour, Timestamp.minute,
    Timestamp.second_of_day, Timestamp.make.
  assert (Hsod : (d * 86400 + h * 3600 + m * 60 + s) mod 86400
                 = h * 3600 + m * 60 + s).
  { symmetry. apply (Z.mod_unique _ _ d); lia. }
  rewrite Hsod.
  assert (Hhour : (h * 3600 + m * 60 + s) / 3600 = h).
  { symmetry. apply (Z.div_unique _ _ _ (m * 60 + s)); lia. }
  assert (Hrem : (h * 3600 + m * 60 + s) mod 3600 = m * 60 + s).
  { symmetry. apply (Z.mod_unique _ _ h); lia. }
  assert (Hmin : (m * 60 + s) / 60 = m).
  { symmetry. apply (Z.div_unique _ _ _ s); lia. }
  now rewrite Hhour, Hrem, Hmin.
Qed.

(** C9: the time of day used by the filter is made of the hour and the
    minute of the entry; the seconds are dropped.  A trade of the series
    entered at any second of the minute of a bound of window 1 is
    therefore kept. *)
Theorem boundary_minute_kept_at_any_second
    (df : DataFrame) (h1i h1f : time)
    (u2 : bool) (h2i h2f : option time) (u3 : bool) (h3i h3f : option time)
    (d h m s : Z) (lucro : Q) :
  0 <= h < 24 -> 0 <= m < 60 -> 0 <= s < 60 ->
  time_to_minutes h1i = h * 60 + m \/ time_to_minutes h1f = h * 60 + m ->
  In (mkTrade (Timestamp.make d h m s) lucro) (trades df) ->
  mins_abertura (Timestamp.make d h m s) = mins_abertura (Timestamp.make d h m 0)
  /\ In (mkTrade (Timestamp.make d h m s) lucro)
        (trades (filtrar_por_tres_janelas_abertura
                   df h1i h1f u2 h2i h2f u3 h3i h3f)).
Proof.
  intros Hh Hm Hs Hbound Hin.
  pose proof (mins_abertura_make d h m s Hh Hm Hs) as Hmins.
  split.
  - rewrite Hmins. symmetry. apply mins_abertura_make; lia.
  - rewrite trades_filtrar, sort_values_In, filter_In.
    split; [exact Hin|].
    unfold mask_final. simpl DataHora. rewrite Hmins.
    rewrite !orb_true_iff. left. left.
    apply mask_janela_iff. unfold WindowSpec.in_window. lia.
Qed.

(** ** The summary *)





Lemma len_zero_nil {A : Type} (l : list A) : (len l =? 0) = true <-> l = [].
Proof.
  unfold len. rewrite Z.eqb_eq. destruct l; simpl; split; intros H;
    try reflexivity; try discriminate; lia.
Qed.


(** ** The bucket tables *)

Section Sums.


Context {A : Type}.



End Sums.

Section GroupSums.

Context {A : Type}.



End GroupSums.

Import Buckets.

Lemma aggregate_rows slot label rows :
  Permutation (aggregate slot label rows)
    (map (fun k => agg label k (group_of slot k rows))
         (group_keys (map slot rows))).
Proof.
  unfold aggregate, groupby. rewrite sort_values_perm, map_map. reflexivity.
Qed.

Lemma aggregate_In slot label rows row :
  In row (aggregate slot label rows)
  <-> exists k, In k (group_keys (map slot rows))
                /\ row = agg label k (group_of slot k rows).
Proof.
  split.
  - intros H. apply (Permutation_in _ (aggregate_rows slot label rows)) in H.
    apply in_map_iff in H. destruct H as (k & <- & Hk). now exists k.
  - intros (k & Hk & ->).
    apply (Permutation_in _ (Permutation_sym (aggregate_rows slot label rows))).
    now apply (in_map (fun k => agg label k (group_of slot k rows))).
Qed.

Lemma slot_15m_range r : 0 <= slot_15m r < 96.
Proof.
  unfold slot_15m, min_do_dia.
  destruct (mins_abertura_time_of_day r) as [-> Hrange].
  Z.div_mod_to_equations. lia.
Qed.


(** *** Buckets without trades *)

Lemma inject_Z_len_nonzero {A : Type} (l : list A) :
  l <> [] -> Qeq_bool (inject_Z (len l)) 0 = false.
Proof.
  intros Hne. apply not_true_is_false. intros H.
  apply Qeq_bool_iff in H. unfold Qeq, len in H. simpl in H.
  destruct l; [congruence|]. simpl length in H. lia.
Qed.

(** Every division of [calc_expectancia] is guarded. *)
Lemma calc_expectancia_total grupo : exists e, calc_expectancia grupo = Some e.
Proof.
  unfold calc_expectancia.
  destruct (len grupo =? 0) eqn:Hn; [now eexists|].
  assert (Hne : grupo <> []).
  { intros Hnil. apply len_zero_nil in Hnil. congruence. }
  unfold py_div. rewrite (inject_Z_len_nonzero grupo Hne). simpl bind.
  set (ganhos := map Lucro_Liquido (loc is_gain grupo)).
  set (perdas := map Lucro_Liquido (loc is_loss grupo)).
  assert (Hg : exists g, (if len ganhos =? 0 then Some 0%Q else mean ganhos) = Some g).
  { destruct ganhos; simpl; eexists; reflexivity. }
  assert (Hp : exists p, (if len perdas =? 0 then Some 0%Q
                          else option_map Qabs (mean perdas)) = Some p).
  { destruct perdas; simpl; eexists; reflexivity. }
  destruct Hg as (g & ->), Hp as (p & ->). simpl. now eexists.
Qed.

Lemma group_of_In {A : Type} (key : A -> Z) k rows r :
  In r (group_of key k rows) <-> In r rows /\ key r = k.
Proof. unfold group_of. now rewrite filter_In, Z.eqb_eq. Qed.

(** C4 as stated does not hold.  A series with one trade, entered at
    09:00: the table has the single row of bucket 36 and no row for
    bucket 0, which has no trade. *)
Lemma empty_bucket_not_listed :
  ~ empty_buckets_listed (Frame [Examples.at_ 10 9 0 0 50]).
Proof.
  intros Hclaim.
  destruct (Hclaim 0) as (row & Hin & Hb & _).
  - lia.
  - intros r [<-|[]]. vm_compute. discriminate.
  - vm_compute in Hin. destruct Hin as [<-|[]]. discriminate Hb.
Qed.

(** C4, amended: [calc_expectancia] of a group without trades is 0 and
    no group makes it divide by zero; the 15-minute table has a row for
    a bucket exactly when the series has a trade in that bucket, so a
    bucket without trades has no row, and every row has a trade count
    >= 1 and a numeric expectancy. *)
Theorem df_hor_15_lists_buckets_with_trades (df : DataFrame) :
  calc_expectancia [] = Some 0%Q
  /\ (forall grupo, exists e, calc_expectancia grupo = Some e)
  /\ (forall b, (exists row, In row (df_hor_15 df) /\ ordem row = b)
                <-> (exists r, In r (trades df) /\ slot_15m r = b))
  /\ (forall row, In row (df_hor_15 df) ->
        Qtd_Ops row >= 1 /\ exists e, Expectancia row = Some e).
Proof.
  split; [reflexivity|].
  split; [apply calc_expectancia_total|].
  split.
  - intros b. unfold df_hor_15. split.
    + intros (row & Hin & Hb). apply aggregate_In in Hin.
      destruct Hin as (k & Hk & ->). simpl in Hb. subst k.
      apply group_keys_In, in_map_iff in Hk.
      destruct Hk as (r & Hr & Hin). now exists r.
    + intros (r & Hin & Hb).
      exists (agg Faixa_Horaria b (group_of slot_15m b (trades df))).
      split; [|reflexivity].
      apply aggregate_In. exists b. split; [|reflexivity].
      apply group_keys_In. rewrite <- Hb. now apply in_map.
  - intros row Hin. unfold df_hor_15 in Hin. apply aggregate_In in Hin.
    destruct Hin as (k & Hk & ->). simpl. split.
    + apply group_keys_In, in_map_iff in Hk. destruct Hk as (r & Hr & Hin).
      assert (Hg : In r (group_of slot_15m k (trades df)))
        by (apply group_of_In; tauto).
      unfold len. destruct (group_of slot_15m k (trades df));
        [contradiction|simpl length; lia].
    + apply calc_expectancia_total.
Qed.

(** *** The join with the 1-hour table *)

Lemma aggregate_ordem slot label rows :
  Permutation (map ordem (aggregate slot label rows))
    (group_keys (map slot rows)).
Proof.
  rewrite (Permutation_map ordem (aggregate_rows slot label rows)).
  rewrite map_map. simpl. now rewrite map_id.
Qed.

Lemma filter_none {A : Type} (f : A -> Z) h l :
  ~ In h (map f l) -> filter (fun r => f r =? h) l = [].
Proof.
  induction l as [|a l IH]; simpl; intros Hnot; [reflexivity|].
  destruct (Z.eqb_spec (f a) h) as [Heq|_]; [tauto|].
  apply IH. tauto.
Qed.

(** A key that occurs once selects one row. *)
Lemma filter_unique {A : Type} (f : A -> Z) h l :
  NoDup (map f l) -> In h (map f l) ->
  exists x, filter (fun r => f r =? h) l = [x].
Proof.
  induction l as [|a l IH]; simpl; intros Hnd Hin; [contradiction|].
  inversion Hnd as [|? ? Hnot Hnd']; subst.
  destruct (Z.eqb_spec (f a) h) as [Heq|Hne].
  - exists a. f_equal. apply filter_none. now rewrite <- Heq.
  - destruct Hin as [Heq|Hin]; [contradiction|]. now apply IH.
Qed.

Lemma slot_1h_of_15m r : slot_15m r / 4 = slot_1h r.
Proof.
  unfold slot_15m, slot_1h. generalize (min_do_dia r) as m. intros m.
  Z.div_mod_to_equations. lia.
Qed.

Lemma merge_left_rows left right :
  (forall l, In l left ->
     exists x, filter (fun r => ordem r =? ordem l / 4) right = [x]) ->
  map stat_15m (merge_left left right) = left.
Proof.
  unfold merge_left.
  induction left as [|l left IH]; intros Hone; [reflexivity|].
  destruct (Hone l (or_introl eq_refl)) as (x & Hx).
  cbn [flat_map]. rewrite Hx, map_app. cbn [map app stat_15m].
  f_equal. apply IH. intros l' Hl'. apply Hone. now right.
Qed.

(** The join keeps the rows of the 15-minute table as they are: every
    bucket with a trade has exactly one hour row. *)
Lemma df_hor_15_overlay_rows df :
  map stat_15m (df_hor_15_overlay df) = df_hor_15 df.
Proof.
  apply merge_left_rows. intros l Hl.
  apply filter_unique.
  - apply (Permutation_NoDup (Permutation_sym (aggregate_ordem _ _ _))).
    apply group_keys_NoDup.
  - apply (Permutation_in _ (Permutation_sym (aggregate_ordem _ _ _))).
    apply aggregate_In in Hl. destruct Hl as (k & Hk & ->). simpl.
    apply group_keys_In, in_map_iff in Hk. destruct Hk as (r & <- & Hr).
    apply group_keys_In. rewrite slot_1h_of_15m. now apply in_map.
Qed.

(** ** The properties on concrete series *)

Module Checks.

Import Examples.

(** Net results 50, 40, 20 with limits 100, 100, 3: the three trades
    are kept, with running totals 50, 90, 110. *)
Example day3_kept :
  simular_stop_diario day3 100 100 3
  = FrameTP [(at_ 10 9 0 0 50, 50%Q); (at_ 10 9 30 0 40, 90%Q);
             (at_ 10 10 0 0 20, 110%Q)].
Proof. vm_compute. reflexivity. Qed.

(** Four losses of 40 in one day: exactly three are kept; the next
    day starts afresh. *)
Example losses4_kept :
  trades (simular_stop_diario losses4 100 100 3)
  = [at_ 10 9 0 0 (-40); at_ 10 9 30 0 (-40); at_ 10 10 0 0 (-40);
     at_ 11 9 0 0 7].
Proof. vm_compute. reflexivity. Qed.

Example zero_between_kept :
  df_len (simular_stop_diario zero_between 1000 1000 2) = 4.
Proof. vm_compute. reflexivity. Qed.

Example wrapping_window :
  trades (filtrar_por_tres_janelas_abertura around_the_clock
            (hm 22 0) (hm 2 0) false None None false None None)
  = [at_ 10 1 0 0 1; at_ 10 23 0 0 3].
Proof. vm_compute. reflexivity. Qed.

End Checks.


Lemma zero_net_result_resets_consecutive_losses_witness :
  is_loss (Examples.at_ 10 9 5 0 0) = false
  /\ perdas_consecutivas (update (mkDay (-10) 1) 0) = 0
  /\ perdas_consecutivas
       (counters_from day_start
          ([Examples.at_ 10 9 0 0 (-10)] ++ [Examples.at_ 10 9 5 0 0])) = 0
  /\ Spec.consecutive_losses
       ([Examples.at_ 10 9 0 0 (-10)] ++ [Examples.at_ 10 9 5 0 0]) = 0.
Proof.
  apply (zero_net_result_resets_consecutive_losses
           (mkDay (-10) 1) [Examples.at_ 10 9 0 0 (-10)]
           (Examples.at_ 10 9 5 0 0)).
  reflexivity.
Defined.

Lemma simular_stop_diario_keeps_first_trade_of_day_witness :
  In (Examples.at_ 10 9 0 0 (-40))
     (trades (simular_stop_diario Examples.losses4 0 0 1))
  /\ In (Examples.at_ 11 9 0 0 7)
        (trades (simular_stop_diario Examples.losses4 0 0 1))
  /\ trades (simular_stop_diario Examples.losses4 0 0 1) <> [].
Proof.
  destruct (simular_stop_diario_keeps_first_trade_of_day Examples.losses4 0 0 1)
    as [Hfirst Hne].
  split; [|split].
  - apply (Hfirst 10 _ [Examples.at_ 10 9 30 0 (-40); Examples.at_ 10 10 0 0 (-40);
                        Examples.at_ 10 10 5 0 (-40)]).
    vm_compute. reflexivity.
  - apply (Hfirst 11 _ []). vm_compute. reflexivity.
  - apply Hne. discriminate.
Defined.

Lemma boundary_minute_kept_at_any_second_witness :
  In (Examples.at_ 10 10 45 59 30)
     (trades (filtrar_por_tres_janelas_abertura Examples.late_entry
                (Examples.hm 9 0) (Examples.hm 10 45)
                false None None false None None)).
Proof.
  apply (boundary_minute_kept_at_any_second Examples.late_entry
           (Examples.hm 9 0) (Examples.hm 10 45) false None None false None None
           10 10 45 59 30).
  - lia.
  - lia.
  - lia.
  - right. reflexivity.
  - left. reflexivity.
Defined.

Lemma simular_stop_diario_Total_Parcial_witness :
  Total_Parcial (simular_stop_diario Examples.day3 100 100 3)
  = Some (cumsum (map Lucro_Liquido
                    (trades (simular_stop_diario Examples.day3 100 100 3))))
  /\ simular_stop_diario (FrameTP []) 100 100 3 = Frame []
  /\ has_Total_Parcial (simular_stop_diario (FrameTP []) 100 100 3) = false.
Proof.
  split.
  - destruct (simular_stop_diario_Total_Parcial Examples.day3 100 100 3)
      as (_ & Hcol & _).
    apply Hcol. vm_compute. discriminate.
  - destruct (simular_stop_diario_Total_Parcial (FrameTP []) 100 100 3)
      as (_ & _ & Hempty).
    apply Hempty. reflexivity.
Defined.

(** * Further properties *)

(** ** The summary: count and balance *)




(** ** The window filter: order, idempotence, wrappers *)

Lemma filter_all {A : Type} (p : A -> bool) l :
  (forall a, In a l -> p a = true) -> filter p l = l.
Proof.
  induction l as [|a l IH]; simpl; intros Hall; [reflexivity|].
  rewrite (Hall a (or_introl eq_refl)). f_equal. apply IH. auto.
Qed.

Lemma ascending_filter {A : Type} (key : A -> Z) (p : A -> bool) l :
  ascending key l -> ascending key (filter p l).
Proof.
  unfold ascending. induction 1 as [|a l Hs IH Hall]; simpl; [constructor|].
  destruct (p a); [|assumption].
  constructor; [assumption|].
  rewrite Forall_forall in *. intros b Hb. apply filter_In in Hb. apply Hall, Hb.
Qed.




(** X4: adding a window never removes a trade: what the one-window filter
    keeps the two-window filter keeps, and what that one keeps the
    three-window filter keeps. *)
Theorem filtrar_more_windows_keep_more
    df h1i h1f u2 h2i h2f u3 h3i h3f (r : Trade) :
  (In r (trades (filtrar_por_janela_abertura df h1i h1f)) ->
   In r (trades (filtrar_por_duas_janelas_abertura df h1i h1f u2 h2i h2f)))
  /\ (In r (trades (filtrar_por_duas_janelas_abertura df h1i h1f u2 h2i h2f)) ->
      In r (trades (filtrar_por_tres_janelas_abertura
                      df h1i h1f u2 h2i h2f u3 h3i h3f))).
Proof.
  unfold filtrar_por_janela_abertura, filtrar_por_duas_janelas_abertura.
  rewrite !trades_filtrar, !sort_values_In, !filter_In.
  unfold mask_final. simpl mask_opcional.
  rewrite !orb_false_r, !orb_true_iff. tauto.
Qed.

(** X5: the window from 00:00 to 23:59 keeps every trade. *)
Theorem filtrar_whole_day_keeps_all df (s1 s2 : Z) :
  Permutation
    (trades (filtrar_por_janela_abertura df (mkTime 0 0 s1) (mkTime 23 59 s2)))
    (trades df).
Proof.
  unfold filtrar_por_janela_abertura.
  rewrite trades_filtrar, sort_values_perm, filter_all; [reflexivity|].
  intros r _. unfold mask_final. simpl mask_opcional. rewrite !orb_false_r.
  apply mask_janela_iff. unfold WindowSpec.in_window, time_to_minutes. simpl.
  destruct (mins_abertura_time_of_day r) as [-> Hrange]. lia.
Qed.

(** ** The simulator: order, provenance, days *)

Lemma kept_of_day_incl limite objetivo n df d r :
  In r (kept_of_day limite objetivo n df d) -> In r (Spec.day_trades df d).
Proof.
  unfold kept_of_day. intros Hin.
  destruct (replay_is_prefix limite objetivo n (Spec.day_trades df d)) as (x & Hx).
  rewrite Hx. apply in_or_app. now left.
Qed.

Lemma kept_of_day_date limite objetivo n df d r :
  In r (kept_of_day limite objetivo n df d) -> Spec.entry_date r = d.
Proof. intros Hin. apply kept_of_day_incl, day_trades_In in Hin. tauto. Qed.


Lemma simular_trades_incl df limite objetivo n r :
  In r (trades (simular_stop_diario df limite objetivo n)) -> In r (trades df).
Proof.
  rewrite trades_simular_by_day. intros Hin.
  apply in_concat in Hin. destruct Hin as (l & Hl & Hr).
  apply in_map_iff in Hl. destruct Hl as (d & <- & _).
  apply kept_of_day_incl, day_trades_In in Hr. tauto.
Qed.

(** X6: the simulated frame is in entry-time order, whatever the order of
    the input, and each of its trades is a trade of the input. *)
Theorem simular_stop_diario_ascending_incl df limite objetivo n :
  ascending DataHora (trades (simular_stop_diario df limite objetivo n))
  /\ forall r, In r (trades (simular_stop_diario df limite objetivo n)) ->
               In r (trades df).
Proof.
  split.
  - rewrite trades_simular_stop_diario. apply sort_values_ascending.
  - intros r. apply simular_trades_incl.
Qed.

(** Selecting one key from blocks that each hold the rows of one key. *)
Lemma filter_concat_blocks {A : Type} (key : A -> Z) (block : Z -> list A) d ks :
  NoDup ks ->
  (forall k r, In r (block k) -> key r = k) ->
  filter (fun r => key r =? d) (concat (map block ks))
  = if in_dec Z.eq_dec d ks then block d else [].
Proof.
  intros Hks Hkey. induction Hks as [|k ks Hk Hks IH]; [reflexivity|].
  cbn [map concat]. rewrite filter_app, IH.
  destruct (Z.eq_dec k d) as [->|Hne].
  - rewrite filter_all
      by (intros r Hr; apply Z.eqb_eq; now apply Hkey).
    destruct (in_dec Z.eq_dec d ks) as [Hin|_]; [contradiction|].
    destruct (in_dec Z.eq_dec d (d :: ks)) as [_|Hout];
      [apply app_nil_r | exfalso; apply Hout; now left].
  - assert (Hnone : filter (fun r => key r =? d) (block k) = []).
    { apply filter_none. intros Hin. apply in_map_iff in Hin.
      destruct Hin as (r & Hr & Hin). apply Hkey in Hin. congruence. }
    rewrite Hnone. simpl app.
    destruct (in_dec Z.eq_dec d ks) as [Hin|Hout];
      destruct (in_dec Z.eq_dec d (k :: ks)) as [Hin'|Hout'];
      try reflexivity.
    + exfalso. apply Hout'. now right.
    + destruct Hin' as [Heq|Hin']; [contradiction|contradiction].
Qed.

Lemma kept_of_day_absent limite objetivo n df d :
  ~ In d (Spec.dates df) -> kept_of_day limite objetivo n df d = [].
Proof.
  intros Hout. unfold kept_of_day.
  destruct (Spec.day_trades df d) as [|r l] eqn:Hday; [reflexivity|].
  exfalso. apply Hout, dates_present. exists r.
  apply day_trades_In. rewrite Hday. now left.
Qed.

(** The trades of one date in the simulated frame are what the replay
    of that date keeps. *)
Lemma simular_filter_date df limite objetivo n d :
  filter (fun r => Spec.entry_date r =? d)
         (trades (simular_stop_diario df limite objetivo n))
  = kept_of_day limite objetivo n df d.
Proof.
  rewrite trades_simular_by_day.
  rewrite (filter_concat_blocks Spec.entry_date)
    by (apply group_keys_NoDup || (intros k r; apply kept_of_day_date)).
  destruct (in_dec Z.eq_dec d (Spec.dates df)) as [_|Hout]; [reflexivity|].
  symmetry. now apply kept_of_day_absent.
Qed.



(** Two strictly ascending lists with the same elements are equal. *)
Lemma increasing_ext l1 : forall l2,
  StronglySorted Z.lt l1 -> StronglySorted Z.lt l2 ->
  (forall x, In x l1 <-> In x l2) -> l1 = l2.
Proof.
  induction l1 as [|a l1 IH]; intros [|b l2] H1 H2 Hsame.
  - reflexivity.
  - exfalso. apply (proj2 (Hsame b)). now left.
  - exfalso. apply (proj1 (Hsame a)). now left.
  - inversion H1 as [|? ? Hs1 Ha]; inversion H2 as [|? ? Hs2 Hb]; subst.
    rewrite Forall_forall in Ha, Hb.
    assert (Hab : a = b).
    { destruct (proj1 (Hsame a) (or_introl eq_refl)) as [Heq|Hin]; [congruence|].
      destruct (proj2 (Hsame b) (or_introl eq_refl)) as [Heq|Hin']; [congruence|].
      specialize (Ha _ Hin'). specialize (Hb _ Hin). lia. }
    subst b. f_equal. apply IH; try assumption.
    intros x. split; intros Hx.
    + destruct (proj1 (Hsame x) (or_intror Hx)) as [<-|Hin]; [|assumption].
      specialize (Ha _ Hx). lia.
    + destruct (proj2 (Hsame x) (or_intror Hx)) as [<-|Hin]; [|assumption].
      specialize (Hb _ Hx). lia.
Qed.






(** X8: the days are independent: the trades of one date in the simulated
    frame are those of the simulation of that date alone. *)
Theorem simular_stop_diario_day_by_day df limite objetivo n d :
  filter (fun r => Spec.entry_date r =? d)
         (trades (simular_stop_diario df limite objetivo n))
  = trades (simular_stop_diario
              (df_loc (fun r => Spec.entry_date r =? d) df)
              limite objetivo n).
Proof.
  rewrite simular_filter_date.
  set (df' := df_loc (fun r => Spec.entry_date r =? d) df).
  assert (Hday : Spec.day_trades df' d = Spec.day_trades df d).
  { unfold Spec.day_trades, df'. rewrite trades_df_loc. f_equal.
    apply filter_all. intros r Hr. apply filter_In in Hr. tauto. }
  assert (Hkept : kept_of_day limite objetivo n df' d
                  = kept_of_day limite objetivo n df d).
  { unfold kept_of_day. now rewrite Hday. }
  rewrite <- Hkept, <- (simular_filter_date df').
  apply filter_all. intros r Hr. apply Z.eqb_eq.
  apply (simular_trades_incl df' limite objetivo n) in Hr.
  unfold df' in Hr. rewrite trades_df_loc in Hr. apply filter_In in Hr.
  now apply Z.eqb_eq.
Qed.

(** ** Degenerate limits *)

Lemma stop_always limite objetivo n st :
  (objetivo <= - limite)%Q \/ n <= perdas_consecutivas st ->
  stop_hit limite objetivo n st = true.
Proof.
  unfold stop_hit, Qgeb. intros [Hband|Hn].
  - destruct (Qle_bool objetivo (saldo_acumulado st)) eqn:Hg; [reflexivity|].
    simpl. apply orb_true_iff. left. apply Qle_bool_iff.
    apply not_true_iff_false in Hg. rewrite Qle_bool_iff in Hg.
    apply Qnot_le_lt in Hg.
    apply Qlt_le_weak. eapply Qlt_le_trans; eassumption.
  - rewrite !orb_true_iff. right. now apply Z.geb_le.
Qed.

Lemma update_perdas_nonneg lucro : 0 <= perdas_consecutivas (update day_start lucro).
Proof. simpl. destruct (Qltb lucro 0); lia. Qed.

(** X9: when the gain target is not above minus the loss limit (both 0,
    for instance), or the maximum of consecutive losses is not
    positive, every day ends at its first trade: the simulated frame
    has one trade per date of the input. *)
Theorem simular_stop_diario_one_trade_per_day df limite objetivo n :
  (objetivo <= - limite)%Q \/ n <= 0 ->
  df_len (simular_stop_diario df limite objetivo n) = len (Spec.dates df)
  /\ forall d first rest,
       Spec.day_trades df d = first :: rest ->
       filter (fun r => Spec.entry_date r =? d)
              (trades (simular_stop_diario df limite objetivo n)) = [first].
Proof.
  intros Hdeg.
  assert (Hone : forall d first rest,
             Spec.day_trades df d = first :: rest ->
             kept_of_day limite objetivo n df d = [first]).
  { intros d first rest Hday. unfold kept_of_day. rewrite Hday.
    cbn [replay app]. rewrite stop_always; [reflexivity|].
    destruct Hdeg as [Hband|Hn]; [now left|right].
    pose proof (update_perdas_nonneg (row_lucro (fun r => r) first)). lia. }
  split.
  - unfold df_len, len. f_equal.
    rewrite trades_simular_by_day, length_concat_map.
    assert (Hlen : forall ks, (forall d, In d ks -> In d (Spec.dates df)) ->
              list_sum (map (fun d => length (kept_of_day limite objetivo n df d)) ks)
              = length ks).
    { induction ks as [|d ks IH]; intros Hks; [reflexivity|].
      cbn [map list_sum fold_right length].
      change (fold_right Nat.add 0%nat ?l) with (list_sum l).
      rewrite IH by (intros; apply Hks; now right).
      assert (Hd : In d (Spec.dates df)) by (apply Hks; now left).
      apply dates_present in Hd. destruct Hd as (r & Hr & Hd).
      assert (Hin : In r (Spec.day_trades df d)) by (apply day_trades_In; tauto).
      destruct (Spec.day_trades df d) as [|first rest] eqn:Hday; [contradiction|].
      now rewrite (Hone d first rest Hday). }
    apply Hlen. auto.
  - intros d first rest Hday. rewrite simular_filter_date. eauto.
Qed.

(** ** The loss streak inside a kept day *)



(** ** The running total *)

Lemma nth_cumsum_from l : forall acc i,
  (i < length l)%nat ->
  (nth i (cumsum_from acc l) 0 == acc + sum (firstn (S i) l))%Q.
Proof.
  induction l as [|x l IH]; intros acc i Hi; simpl in Hi; [lia|].
  destruct i as [|i].
  - simpl. destruct l; simpl; ring.
  - cbn [cumsum_from nth]. rewrite IH by lia.
    change (firstn (S (S i)) (x :: l)) with (x :: firstn (S i) l).
    simpl sum. ring.
Qed.


Lemma running_total_cumsum df :
  Total_Parcial df = Some (cumsum (map Lucro_Liquido (trades df))) ->
  running_total df.
Proof.
  intros Hcol col Hcol'. rewrite Hcol in Hcol'. injection Hcol' as <-.
  unfold cumsum. rewrite cumsum_from_length, length_map. split; [reflexivity|].
  intros i Hi. rewrite nth_cumsum_from by (now rewrite length_map).
  rewrite <- firstn_map. ring.
Qed.

Lemma running_total_set df : running_total (set_Total_Parcial_cumsum df).
Proof.
  apply running_total_cumsum.
  now rewrite Total_Parcial_set_cumsum, trades_set_Total_Parcial_cumsum.
Qed.

Lemma running_total_simular df limite objetivo n :
  running_total (simular_stop_diario df limite objetivo n).
Proof.
  destruct (simular_stop_diario_cases df limite objetivo n)
    as [(_ & _ & Hcol)|Hempty].
  - now apply running_total_cumsum.
  - rewrite Hempty. intros col Hcol. discriminate.
Qed.

Lemma running_total_ensure df :
  running_total df -> running_total (ensure_Total_Parcial df).
Proof.
  unfold ensure_Total_Parcial.
  destruct (_ && _); [intros _; apply running_total_set | trivial].
Qed.

(** X11: in each of the four series of the comparison page the column
    "Total Parcial (pts)", when the series has it, holds the running
    sums of the net results of the rows of that series, in row order:
    the column is recomputed after the filter and after the simulator,
    never carried over from the input. *)
Theorem four_series_running_total (c : Config) (df_filtrado : DataFrame) :
  running_total (df_real df_filtrado)
  /\ running_total (df_stop c df_filtrado)
  /\ running_total (df_janela c df_filtrado)
  /\ running_total (df_combo c df_filtrado).
Proof.
  unfold df_real, df_stop, df_janela, df_combo.
  split; [apply running_total_set|].
  split; [apply running_total_ensure, running_total_simular|].
  split; [apply running_total_set|].
  apply running_total_ensure, running_total_simular.
Qed.


(** ** The comparison chart *)

Lemma Total_Parcial_length df col :
  Total_Parcial df = Some col -> length col = length (trades df).
Proof.
  destruct df as [rows|rows]; simpl; [discriminate|].
  intros H. injection H as <-. now rewrite !length_map.
Qed.

(** After lines 751-752 a frame with rows has the column. *)
Lemma ensure_has_Total_Parcial df :
  (df_len df >? 0) = true -> has_Total_Parcial (ensure_Total_Parcial df) = true.
Proof.
  intros Hlen. unfold ensure_Total_Parcial. rewrite Hlen.
  destruct (has_Total_Parcial df) eqn:Hhas; simpl; [assumption|reflexivity].
Qed.

Lemma scatter_some df name color width :
  has_Total_Parcial df = true ->
  exists t, Plot.scatter df name color width = Some t
            /\ length (Plot.x t) = length (Plot.y t).
Proof.
  unfold Plot.scatter. destruct df as [rows|rows]; simpl; [discriminate|].
  intros _. eexists. split; [reflexivity|]. simpl. now rewrite !length_map.
Qed.

Lemma scatter_if_rows_ensure df name color width :
  exists ts,
    Plot.scatter_if_rows (Some (ensure_Total_Parcial df)) name color width = Some ts
    /\ length ts = (if df_len (ensure_Total_Parcial df) >? 0 then 1 else 0)%nat
    /\ Forall (fun t => length (Plot.x t) = length (Plot.y t)) ts.
Proof.
  unfold Plot.scatter_if_rows.
  destruct (df_len (ensure_Total_Parcial df) >? 0) eqn:Hlen.
  - assert (Hlen' : (df_len df >? 0) = true).
    { unfold df_len in *. now rewrite ensure_Total_Parcial_trades in Hlen. }
    destruct (scatter_some (ensure_Total_Parcial df) name color width
                (ensure_has_Total_Parcial df Hlen')) as (t & -> & Hxy).
    exists [t]. simpl. repeat split. constructor; [assumption|constructor].
  - exists []. repeat split. constructor.
Qed.

(** X13: for the four series the page builds, the chart never reads a
    missing column: it has the two traces of the real and of the
    window-filtered series, plus one for each simulated series that has
    rows, and every trace has as many ordinates as abscissas. *)
Theorem plot_patrimonio_4_linhas_defined (c : Config) (df_filtrado : DataFrame) :
  exists traces,
    Plot.plot_patrimonio_4_linhas
      (df_real df_filtrado) (Some (df_stop c df_filtrado))
      (df_janela c df_filtrado) (Some (df_combo c df_filtrado)) = Some traces
    /\ length traces
       = (2 + (if df_len (df_stop c df_filtrado) >? 0 then 1 else 0)
            + (if df_len (df_combo c df_filtrado) >? 0 then 1 else 0))%nat
    /\ Forall (fun t => length (Plot.x t) = length (Plot.y t)) traces.
Proof.
  unfold Plot.plot_patrimonio_4_linhas.
  destruct (scatter_some (df_real df_filtrado) "Real" Plot.COR_REAL
              Plot.W_DESTAQUE eq_refl) as (t1 & -> & H1).
  unfold df_stop, df_combo.
  destruct (scatter_if_rows_ensure
              (simular_stop_diario (df_real df_filtrado)
                 (limite_perda c) (objetivo_ganho c) (loss_consecutivos c))
              "Só Stops" Plot.COR_STOPS Plot.W_BASE) as (t2 & -> & L2 & H2).
  destruct (scatter_some (df_janela c df_filtrado) "Só Janela" Plot.COR_JANELA
              Plot.W_BASE eq_refl) as (t3 & -> & H3).
  destruct (scatter_if_rows_ensure
              (simular_stop_diario (df_janela c df_filtrado)
                 (limite_perda c) (objetivo_ganho c) (loss_consecutivos c))
              "Stops + Janela" Plot.COR_COMBO Plot.W_DESTAQUE)
    as (t4 & -> & L4 & H4).
  eexists. split; [reflexivity|]. split.
  - rewrite !length_app, L2, L4. simpl. lia.
  - apply Forall_app; split; [now repeat constructor|].
    apply Forall_app; split; [assumption|].
    apply Forall_app; split; [now repeat constructor|assumption].
Qed.

(** ** Buckets: intervals, hit rate, expectancy *)

(** X14: the interval shown in the label of the bucket of a trade contains
    the minute of day of the trade, lies inside the day, and the
    15-minute bucket of a trade lies inside its 1-hour bucket. *)
Theorem bucket_intervals (r : Trade) :
  let m := min_do_dia r in
  (slot_ini_min (slot_15m r) <= m <= slot_fim_min (slot_15m r))
  /\ (slot1h_ini_min (slot_1h r) <= m <= slot1h_fim_min (slot_1h r))
  /\ (slot1h_ini_min (slot_1h r) <= slot_ini_min (slot_15m r)
      /\ slot_fim_min (slot_15m r) <= slot1h_fim_min (slot_1h r))
  /\ (0 <= slot_ini_min (slot_15m r) /\ slot_fim_min (slot_15m r) <= 1439)
  /\ slot_1h r = slot_15m r / 4.
Proof.
  cbv zeta.
  split; [|split; [|split; [|split; [|symmetry; apply slot_1h_of_15m]]]];
    unfold slot_fim_min, slot1h_fim_min, slot_ini_min, slot1h_ini_min,
      slot_15m, slot_1h, min_do_dia;
    destruct (mins_abertura_time_of_day r) as [-> Hrange];
    generalize dependent (WindowSpec.time_of_day r); intros m Hrange;
    Z.div_mod_to_equations; lia.
Qed.


Lemma inject_Z_pos z : 0 < z -> (0 < inject_Z z)%Q.
Proof. intros H. change 0%Q with (inject_Z 0). now rewrite <- Zlt_Qlt. Qed.







Lemma aggregate_group_nonempty {A : Type} (slot : A -> Z) rows k :
  In k (group_keys (map slot rows)) -> group_of slot k rows <> [].
Proof.
  intros Hk Hnil. apply group_keys_In, in_map_iff in Hk.
  destruct Hk as (r & Hr & Hin).
  assert (Hg : In r (group_of slot k rows)) by (apply group_of_In; tauto).
  now rewrite Hnil in Hg.
Qed.


Lemma sum_indicator {A : Type} (p : A -> bool) (g : list A) :
  (sum (map (fun r => if p r then 1 else 0) g) == inject_Z (len (filter p g)))%Q.
Proof.
  unfold len. induction g as [|r g IH]; simpl; [reflexivity|].
  rewrite IH. destruct (p r); simpl length.
  - rewrite Nat2Z.inj_succ, <- Z.add_1_l, inject_Z_plus. reflexivity.
  - ring.
Qed.

Lemma percent_range (a b : Z) :
  0 <= a <= b -> 0 < b ->
  (0 <= inject_Z a / inject_Z b * 100 <= 100)%Q.
Proof.
  intros Hab Hb. pose proof (inject_Z_pos b Hb) as Hb'.
  assert (H0 : (0 <= inject_Z a / inject_Z b)%Q).
  { apply Qle_shift_div_l; [assumption|]. rewrite Qmult_0_l.
    change 0%Q with (inject_Z 0). rewrite <- Zle_Qle. lia. }
  assert (H1 : (inject_Z a / inject_Z b <= 1)%Q).
  { apply Qle_shift_div_r; [assumption|]. rewrite Qmult_1_l.
    rewrite <- Zle_Qle. lia. }
  split.
  - setoid_replace 0%Q with (0 * 100)%Q by ring.
    apply Qmult_le_compat_r; [assumption|discriminate].
  - setoid_replace 100%Q with (1 * 100)%Q at 2 by ring.
    apply Qmult_le_compat_r; [assumption|discriminate].
Qed.

(** X16: the hit rate of a row of the 15-minute table is a number between 0
    and 100: one hundred times the share of the trades of the bucket
    whose net result is positive. *)
Theorem hit_rate_is_percentage (df : DataFrame) (row : BucketStat) :
  In row (df_hor_15 df) ->
  exists t, Taxa_Acerto row = Some t
            /\ (0 <= t <= 100)%Q
            /\ (t == inject_Z (len (filter is_gain
                                     (group_of slot_15m (ordem row) (trades df))))
                     / inject_Z (Qtd_Ops row) * 100)%Q.
Proof.
  intros Hrow. apply aggregate_In in Hrow. destruct Hrow as (k & Hk & ->).
  pose proof (aggregate_group_nonempty slot_15m (trades df) k Hk) as Hne.
  cbn [Taxa_Acerto ordem Qtd_Ops agg].
  set (g := group_of slot_15m k (trades df)) in *.
  unfold mean.
  destruct (map (fun r => if is_gain r then 1%Q else 0%Q) g) as [|x l] eqn:Hmap.
  { destruct g; [congruence|discriminate]. }
  rewrite <- Hmap. cbn [option_map]. eexists. split; [reflexivity|].
  assert (Hlen : len (map (fun r => if is_gain r then 1%Q else 0%Q) g) = len g)
    by (unfold len; now rewrite length_map).
  rewrite Hlen.
  assert (Heq : (sum (map (fun r => if is_gain r then 1 else 0) g) / inject_Z (len g) * 100
                 == inject_Z (len (filter is_gain g)) / inject_Z (len g) * 100)%Q)
    by (now rewrite sum_indicator).
  split; [|exact Heq].
  assert (Hrange : (0 <= inject_Z (len (filter is_gain g)) / inject_Z (len g) * 100
                    <= 100)%Q).
  { apply percent_range.
    - unfold len. pose proof (filter_length_le is_gain g). lia.
    - unfold len. destruct g; [congruence|simpl length; lia]. }
  rewrite Heq. exact Hrange.
Qed.

(** ** The two bucket tables together *)

Lemma agg_ascending label (groups : Z -> list Trade) ks :
  StronglySorted Z.lt ks ->
  ascending ordem (map (fun k => agg label k (groups k)) ks).
Proof.
  unfold ascending. induction 1 as [|k ks Hs IH Hall]; simpl; constructor.
  - assumption.
  - rewrite Forall_forall in *. intros row Hrow.
    apply in_map_iff in Hrow. destruct Hrow as (k' & <- & Hk').
    simpl. specialize (Hall _ Hk'). lia.
Qed.

(** The table has its rows in the order of the group keys. *)
Lemma aggregate_eq slot label rows :
  aggregate slot label rows
  = map (fun k => agg label k (group_of slot k rows))
        (group_keys (map slot rows)).
Proof.
  unfold aggregate, groupby. rewrite map_map. simpl.
  apply sort_values_id, agg_ascending, group_keys_increasing.
Qed.






(** ** Loading and the period *)

Import Load.

Lemma dropna_In csv ts res :
  In (ts, res) (dropna csv) <-> In (mkRaw (Some ts) res) csv.
Proof.
  induction csv as [|[[t|] q] csv IH]; simpl.
  - tauto.
  - rewrite IH. split; intros [H|H]; auto; left; congruence.
  - rewrite IH. split; [auto|]. intros [H|H]; [discriminate|assumption].
Qed.

Lemma dropna_length csv :
  (length (dropna csv) + length (filter is_NaT csv) = length csv)%nat.
Proof.
  induction csv as [|r csv IH]; [reflexivity|].
  cbn [dropna filter]. unfold is_NaT at 1.
  destruct (raw_DataHora r); simpl length; lia.
Qed.

Lemma load_data_ascending csv :
  ascending (fun o => DataHora (trade o)) (load_data csv).
Proof.
  unfold load_data.
  pose proof (sort_values_ascending fst (dropna csv)) as Hs.
  revert Hs. generalize (sort_values fst (dropna csv)) as l.
  unfold ascending. induction 1 as [|a l Hs IH Hall]; simpl; constructor.
  - assumption.
  - rewrite Forall_forall in *. intros o Ho. apply in_map_iff in Ho.
    destruct Ho as (b & <- & Hb). simpl. now apply Hall.
Qed.

(** X19: loading drops the rows whose date and time do not parse and only
    those, keeps every other row once, puts the rows in entry-time
    order, and sets the net result of each to its gross result minus
    the cost of 2.5 points. *)
Theorem load_data_rows csv :
  ascending (fun o => DataHora (trade o)) (load_data csv)
  /\ (length (load_data csv) + length (filter is_NaT csv) = length csv)%nat
  /\ (forall ts res,
         In (mkRaw (Some ts) res) csv
         <-> exists o, In o (load_data csv)
                       /\ DataHora (trade o) = ts /\ Res_Operacao o = res)
  /\ (forall o, In o (load_data csv) ->
        Lucro_Liquido (trade o) = (Res_Operacao o - (25 # 10))%Q
        /\ Custo_Operacao o = 25 # 10
        /\ Hora o <= DataHora (trade o) < Hora o + 3600
        /\ Hora o mod 3600 = 0).
Proof.
  split; [apply load_data_ascending|].
  split.
  { unfold load_data. rewrite length_map, sort_values_length.
    apply dropna_length. }
  split.
  - intros ts res. rewrite <- dropna_In. unfold load_data. split.
    + intros Hin. eexists. split.
      * apply in_map. apply sort_values_In. exact Hin.
      * simpl. split; reflexivity.
    + intros (o & Ho & <- & <-). apply in_map_iff in Ho.
      destruct Ho as ([ts res] & <- & Hin). simpl.
      now apply sort_values_In in Hin.
  - intros o Ho. unfold load_data in Ho. apply in_map_iff in Ho.
    destruct Ho as ([ts res] & <- & _). simpl.
    repeat split; unfold floor_H.
    + pose proof (Z.mod_pos_bound ts 3600). lia.
    + pose proof (Z.mod_pos_bound ts 3600). lia.
    + rewrite Zminus_mod, Z.mod_mod, Z.sub_diag by lia. reflexivity.
Qed.

Lemma fold_min_le l : forall x y, In y (x :: l) -> fold_left Z.min l x <= y.
Proof.
  induction l as [|a l IH]; intros x y Hy; simpl.
  - destruct Hy as [<-|[]]. lia.
  - destruct Hy as [<-|[<-|Hy]].
    + transitivity (Z.min x a); [apply IH; now left|lia].
    + transitivity (Z.min x a); [apply IH; now left|lia].
    + apply IH. now right.
Qed.

Lemma fold_max_ge l : forall x y, In y (x :: l) -> y <= fold_left Z.max l x.
Proof.
  induction l as [|a l IH]; intros x y Hy; simpl.
  - destruct Hy as [<-|[]]. lia.
  - destruct Hy as [<-|[<-|Hy]].
    + transitivity (Z.max x a); [lia|apply IH; now left].
    + transitivity (Z.max x a); [lia|apply IH; now left].
    + apply IH. now right.
Qed.

Lemma date_mono a b : a <= b -> Timestamp.date a <= Timestamp.date b.
Proof. unfold Timestamp.date. intros H. apply Z.div_le_mono; lia. Qed.

(** X20: with the default period, from the date of the earliest entry to the
    date of the latest, the period filter keeps every row; with any
    period it keeps the rows of the table in their order, so a table in
    entry-time order gives a frame in entry-time order. *)
Theorem periodo_default_keeps_all (df : list Operacao) (a b : Z) :
  data_min df = Some a -> data_max df = Some b ->
  periodo df a b = df
  /\ forall a' b',
       ascending (fun o => DataHora (trade o)) df ->
       ascending DataHora (trades (df_filtrado df a' b')).
Proof.
  intros Hmin Hmax. split.
  - unfold periodo. apply filter_all. intros o Ho.
    unfold data_min, data_max, col_min, col_max in Hmin, Hmax.
    assert (Hts : In (DataHora (trade o)) (map (fun o => DataHora (trade o)) df))
      by (apply in_map_iff; now exists o).
    destruct (map (fun o => DataHora (trade o)) df) as [|x l]; [contradiction|].
    simpl in Hmin, Hmax. injection Hmin as <-. injection Hmax as <-.
    apply andb_true_iff. rewrite Z.geb_le, Z.leb_le. unfold op_date.
    split; apply date_mono; [now apply fold_min_le|now apply fold_max_ge].
  - intros a' b' Hasc. unfold df_filtrado.
    rewrite trades_set_Total_Parcial_cumsum. simpl trades.
    unfold periodo.
    pose proof (ascending_filter (fun o => DataHora (trade o))
                  (fun o => (op_date o >=? a') && (op_date o <=? b')) df Hasc)
      as Hf.
    revert Hf. generalize (filter (fun o => (op_date o >=? a') && (op_date o <=? b')) df).
    unfold ascending. induction 1 as [|o l Hs IH Hall]; simpl; constructor.
    + assumption.
    + rewrite Forall_forall in *. intros t Ht. apply in_map_iff in Ht.
      destruct Ht as (o' & <- & Ho'). now apply Hall.
Qed.

(** ** The page "Operações" *)

Import Operacoes.





(** ** The hour ticks of the bucket charts *)

Lemma seq_increasing n : forall a,
  StronglySorted Z.lt (map Z.of_nat (seq a n)).
Proof.
  induction n as [|n IH]; intros a; simpl; constructor; [apply IH|].
  rewrite Forall_forall. intros x Hx. apply in_map_iff in Hx.
  destruct Hx as (i & <- & Hi). apply in_seq in Hi. lia.
Qed.

Lemma all_slots_In x : In x Ticks.all_slots <-> 0 <= x < 96.
Proof.
  unfold Ticks.all_slots. rewrite in_map_iff. split.
  - intros (i & <- & Hi). apply in_seq in Hi. lia.
  - intros Hx. exists (Z.to_nat x). split; [lia|]. apply in_seq. lia.
Qed.

(** X22: when every one of the 96 buckets has a trade, the table has the 96
    buckets in order and the ticks, taken every fourth row, are the 24
    hours: the tick of position h is at the first quarter of hour h and
    reads the hour and the next one, as in "9h–10h". *)
Theorem ticks_are_hours_when_all_buckets_present (df : DataFrame) :
  (forall b, 0 <= b < 96 -> exists r, In r (trades df) /\ slot_15m r = b) ->
  map (fun r => ordem (stat_15m r)) (df_hor_15_overlay df) = Ticks.all_slots
  /\ Ticks.ticktext_1h (df_hor_15_overlay df)
     = map (fun h => Ticks.label_hora (4 * h)) Ticks.all_hours
  /\ Ticks.tickvals_1h (df_hor_15_overlay df)
     = map (fun h => Faixa_Horaria (4 * h)) Ticks.all_hours.
Proof.
  intros Hall.
  assert (Hkeys : group_keys (map slot_15m (trades df)) = Ticks.all_slots).
  { apply increasing_ext;
      [apply group_keys_increasing | apply seq_increasing |].
    intros x. rewrite group_keys_In, all_slots_In, in_map_iff. split.
    - intros (r & <- & _). apply slot_15m_range.
    - intros Hx. destruct (Hall x Hx) as (r & Hr & Hs). now exists r. }
  assert (Hrows : map stat_15m (df_hor_15_overlay df)
                  = map (fun k => agg Faixa_Horaria k
                                    (group_of slot_15m k (trades df)))
                        Ticks.all_slots).
  { rewrite df_hor_15_overlay_rows. unfold df_hor_15.
    now rewrite aggregate_eq, Hkeys. }
  assert (Hord : map (fun r => ordem (stat_15m r)) (df_hor_15_overlay df)
                 = Ticks.all_slots).
  { rewrite <- (map_map stat_15m ordem), Hrows, map_map. cbn [ordem agg].
    apply map_id. }
  split; [exact Hord|]. split.
  - unfold Ticks.ticktext_1h. rewrite Hord. vm_compute. reflexivity.
  - unfold Ticks.tickvals_1h.
    rewrite <- (map_map stat_15m Faixa), Hrows, map_map. cbn [Faixa agg].
    vm_compute. reflexivity.
Qed.


(** ** The further properties on concrete series *)

Lemma simular_stop_diario_one_trade_per_day_witness :
  df_len (simular_stop_diario Examples.losses4 0 0 3) = 2.
Proof.
  apply (simular_stop_diario_one_trade_per_day Examples.losses4 0 0 3).
  left. vm_compute. discriminate.
Defined.





Lemma hit_rate_is_percentage_witness :
  exists t, Taxa_Acerto Examples2.row_0900 = Some t
            /\ (0 <= t <= 100)%Q
            /\ (t == inject_Z (len (filter is_gain
                                     (group_of slot_15m (ordem Examples2.row_0900)
                                        (trades Examples.losses4))))
                     / inject_Z (Qtd_Ops Examples2.row_0900) * 100)%Q.
Proof.
  apply (hit_rate_is_percentage Examples.losses4 Examples2.row_0900).
  vm_compute. left. reflexivity.
Defined.


Lemma periodo_default_keeps_all_witness :
  periodo (load_data Examples2.csv3) 10 11 = load_data Examples2.csv3.
Proof.
  apply (periodo_default_keeps_all (load_data Examples2.csv3) 10 11).
  - vm_compute. reflexivity.
  - vm_compute. reflexivity.
Defined.

Lemma every_quarter_has_all_buckets b :
  0 <= b < 96 ->
  exists r, In r (trades Ticks.every_quarter) /\ slot_15m r = b.
Proof.
  intros Hb.
  exists (mkTrade (Timestamp.make 10 (b / 4) (15 * (b mod 4)) 0) 1). split.
  - change (trades Ticks.every_quarter)
      with (map (fun b => mkTrade (Timestamp.make 10 (b / 4) (15 * (b mod 4)) 0) 1)
                Ticks.all_slots).
    apply (in_map (fun b => mkTrade (Timestamp.make 10 (b / 4) (15 * (b mod 4)) 0) 1)).
    now apply all_slots_In.
  - unfold slot_15m, min_do_dia. cbn [DataHora].
    pose proof (Z.mod_pos_bound b 4 ltac:(lia)) as Hm.
    pose proof (Z.div_mod b 4 ltac:(lia)) as Hd.
    rewrite mins_abertura_make by lia.
    symmetry. apply (Z.div_unique _ _ _ 0); lia.
Defined.

Lemma ticks_are_hours_when_all_buckets_present_witness :
  map (fun r => ordem (stat_15m r)) (df_hor_15_overlay Ticks.every_quarter)
  = Ticks.all_slots
  /\ Ticks.ticktext_1h (df_hor_15_overlay Ticks.every_quarter)
     = map (fun h => Ticks.label_hora (4 * h)) Ticks.all_hours
  /\ Ticks.tickvals_1h (df_hor_15_overlay Ticks.every_quarter)
     = map (fun h => Faixa_Horaria (4 * h)) Ticks.all_hours.
Proof.
  apply (ticks_are_hours_when_all_buckets_present Ticks.every_quarter).
  exact every_quarter_has_all_buckets.
Defined.
